(** * A model of the TikTok downloader (app.py)

    The development embeds the cache ([get_cached], [save_cache]), the
    clean-up of old downloads ([cleanup_old_files]), the download function
    ([download_tiktok], with its local [format_num]) and the form handler
    ([index]) of app.py, and proves what the specification says of them.

    Python values are an inductive type, exceptions and the file system are
    explicit: a computation takes the world and gives back either a value
    or a raised exception, together with the world it leaves behind. *)

From Stdlib Require Import ZArith QArith Lia Lqa Bool Ascii String List.
From Stdlib Require Import DecimalString DecimalZ DecimalPos.
From stdpp Require Import base option list strings gmap.

Local Open Scope string_scope.
Local Open Scope Z_scope.

(** ** Python values *)

Module Py.

(** The values that travel through app.py: what yt-dlp puts in its info
    dictionary and what [json] writes and reads. A dictionary keeps its
    items in insertion order, as Python's does. Floats are left out as
    values: app.py computes with none but the quotients of [format_num],
    which are modelled apart (see [Float]). *)
#[warnings="-register-all"]
Inductive pyval : Type :=
  | PNone : pyval
  | PBool : bool -> pyval
  | PInt : Z -> pyval
  | PStr : string -> pyval
  | PList : list pyval -> pyval
  | PDict : list (string * pyval) -> pyval.

(** Results of a call: a value, or a raised exception with its message
    ([str(e)], which is all that app.py reads of an exception). *)
Inductive exc (A : Type) : Type :=
  | Ok : A -> exc A
  | Raise : string -> exc A.
Arguments Ok {A} _.
Arguments Raise {A} _.

(** [type(v).__name__] *)
Definition type_name (v : pyval) : string :=
  match v with
  | PNone => "NoneType"
  | PBool _ => "bool"
  | PInt _ => "int"
  | PStr _ => "str"
  | PList _ => "list"
  | PDict _ => "dict"
  end.

(** [bool(v)]: what [if v:] and [not v] test. *)
Definition truthy (v : pyval) : bool :=
  match v with
  | PNone => false
  | PBool b => b
  | PInt z => negb (z =? 0)%Z
  | PStr s => negb (String.eqb s "")
  | PList l => match l with [] => false | _ => true end
  | PDict d => match d with [] => false | _ => true end
  end.

(** [d[k]] on the items of a dictionary. *)
Fixpoint assoc (k : string) (d : list (string * pyval)) : option pyval :=
  match d with
  | [] => None
  | (k', v) :: d' => if String.eqb k k' then Some v else assoc k d'
  end.

(** [v.get(k, dflt)]: only a dictionary has the method. *)
Definition py_get (v : pyval) (k : string) (dflt : pyval) : exc pyval :=
  match v with
  | PDict d => Ok (default dflt (assoc k d))
  | _ => Raise ("'" ++ type_name v ++ "' object has no attribute 'get'")
  end.

Fixpoint string_take (n : nat) (s : string) : string :=
  match n, s with
  | S n', String c s' => String c (string_take n' s')
  | _, _ => EmptyString
  end.

(** [v[:n]] *)
Definition py_slice_to (n : nat) (v : pyval) : exc pyval :=
  match v with
  | PStr s => Ok (PStr (string_take n s))
  | PList l => Ok (PList (take n l))
  | PDict _ => Raise "unhashable type: 'slice'"
  | _ => Raise ("'" ++ type_name v ++ "' object is not subscriptable")
  end.

Fixpoint string_last (s : string) : option ascii :=
  match s with
  | EmptyString => None
  | String c EmptyString => Some c
  | String _ s' => string_last s'
  end.

(** [v[-1]] *)
Definition py_last (v : pyval) : exc pyval :=
  match v with
  | PList l =>
      match last l with
      | Some x => Ok x
      | None => Raise "list index out of range"
      end
  | PStr s =>
      match string_last s with
      | Some c => Ok (PStr (String c EmptyString))
      | None => Raise "string index out of range"
      end
  | PDict _ => Raise "-1"
  | _ => Raise ("'" ++ type_name v ++ "' object is not subscriptable")
  end.

End Py.
Export Py.

(** ** The exception monad *)

#[global] Instance exc_ret : MRet exc := fun _ x => Ok x.
#[global] Instance exc_bind : MBind exc := fun _ _ f m =>
  match m with
  | Ok x => f x
  | Raise e => Raise e
  end.

(** ** Strings

    A string is a sequence of code points below 256; the tests and slices
    of app.py are on code points. *)

Module Str.

(** [c.isspace()] on the code points below 256. *)
Definition is_space (c : ascii) : bool :=
  let n := nat_of_ascii c in
  ((9 <=? n) && (n <=? 13) || (28 <=? n) && (n <=? 32)
   || (n =? 133) || (n =? 160))%nat.

Fixpoint lstrip (s : string) : string :=
  match s with
  | String c s' => if is_space c then lstrip s' else s
  | EmptyString => EmptyString
  end.

(** Drops the white space at the end: a character is kept when it is not
    white space or something is kept after it. *)
Fixpoint rstrip (s : string) : string :=
  match s with
  | String c s' =>
      match rstrip s' with
      | EmptyString => if is_space c then EmptyString else String c EmptyString
      | t => String c t
      end
  | EmptyString => EmptyString
  end.

(** [s.strip()] *)
Definition strip (s : string) : string := rstrip (lstrip s).

(** [s.startswith(p)] *)
Fixpoint starts_with (p s : string) : bool :=
  match p, s with
  | EmptyString, _ => true
  | String a p', String b s' => Ascii.eqb a b && starts_with p' s'
  | String _ _, EmptyString => false
  end.

(** [needle in hay] *)
Fixpoint contains (needle hay : string) : bool :=
  starts_with needle hay ||
  match hay with
  | String _ hay' => contains needle hay'
  | EmptyString => false
  end.

(** [str(n)] for an integer. *)
Definition of_Z (n : Z) : string := NilZero.string_of_int (Z.to_int n).

Definition digit_value (c : ascii) : option Z :=
  let n := nat_of_ascii c in
  if ((48 <=? n) && (n <=? 57))%nat then Some (Z.of_nat n - 48) else None.

(** The digits of an integer literal, where one underscore may stand
    between two digits. [after_digit] tells whether the previous character
    was a digit: only then may the literal end or an underscore follow. *)
Fixpoint digits (acc : Z) (after_digit : bool) (s : string) : option Z :=
  match s with
  | EmptyString => if after_digit then Some acc else None
  | String c s' =>
      match digit_value c with
      | Some d => digits (10 * acc + d) true s'
      | None =>
          if Ascii.eqb c "_" && after_digit then digits acc false s' else None
      end
  end.

(** [int(s)] for a string: white space around, a sign, the digits. *)
Definition to_Z (s : string) : option Z :=
  match strip s with
  | String "+" t => digits 0 false t
  | String "-" t => Z.opp <$> digits 0 false t
  | t => digits 0 false t
  end.

End Str.

(** ** Floats, as far as [format_num] needs them

    [n / d] on two integers is the binary64 number nearest to the quotient
    (ties to even), and [f"{x:.1f}"] is the decimal with one digit after
    the point nearest to the exact value of [x] (ties to even). Both are
    computed here on integers. A float is a pair [(m, e)] that stands for
    [m * 2^e]. *)

Module Float.

(** The integer nearest to [a / b], ties to even, for [0 <= a] and [0 < b]. *)
Definition rne (a b : Z) : Z :=
  let q := a / b in
  match 2 * (a mod b) ?= b with
  | Lt => q
  | Gt => q + 1
  | Eq => if Z.even q then q else q + 1
  end.

(** The exponent [e] with [2^e <= n / d < 2^(e+1)], for [0 < d <= n]. *)
Definition exponent (n d : Z) : Z :=
  let k := Z.log2 n - Z.log2 d in
  if n <? d * 2 ^ k then k - 1 else k.

(** [n / d] for integers [0 < d <= n]: 53 significant bits, and
    [OverflowError] when the rounded quotient is beyond the largest float. *)
Definition true_div (n d : Z) : exc (Z * Z) :=
  if d =? 0 then Raise "division by zero" else
  let e := exponent n d in
  let m := if e <=? 52 then rne (n * 2 ^ (52 - e)) d
           else rne n (d * 2 ^ (e - 52)) in
  if (1023 <? e) || (e =? 1023) && (m =? 2 ^ 53)
  then Raise "integer division result too large for a float"
  else Ok (m, e - 52).

(** The number of tenths nearest to [m * 2^e]. *)
Definition tenths (x : Z * Z) : Z :=
  let '(m, e) := x in
  if 0 <=? e then 10 * m * 2 ^ e else rne (10 * m) (2 ^ (- e)).

(** [r] tenths written with one digit after the point. *)
Definition render_tenths (r : Z) : string :=
  Str.of_Z (r / 10) ++ "." ++ Str.of_Z (r mod 10).

(** [f"{x:.1f}"] for a float [x >= 0]. *)
Definition format_1f (x : Z * Z) : string := render_tenths (tenths x).

End Float.

(** ** Counters *)

(** [int(v)] *)
Definition py_int (v : pyval) : exc Z :=
  match v with
  | PInt z => Ok z
  | PBool b => Ok (if b then 1 else 0)
  | PStr s =>
      match Str.to_Z s with
      | Some z => Ok z
      | None => Raise "invalid literal for int() with base 10"
      end
  | _ => Raise "int() argument must be a string, a bytes-like object or a real number"
  end.

(** The body of [format_num], inside its [try]. *)
Definition format_num_body (num : pyval) : exc string :=
  num ← py_int num;
  if 1000000 <=? num then
    x ← Float.true_div num 1000000; Ok (Float.format_1f x ++ "Jt")
  else if 1000 <=? num then
    x ← Float.true_div num 1000; Ok (Float.format_1f x ++ "K")
  else Ok (Str.of_Z num).

(** [format_num]: any exception gives ["0"]. *)
Definition format_num (num : pyval) : string :=
  match format_num_body num with
  | Ok s => s
  | Raise _ => "0"
  end.

(** ** The digest of a URL: MD5, on the UTF-8 bytes of the string *)

Module Md5.

Definition K : list Z := [
  3614090360; 3905402710; 606105819; 3250441966; 4118548399; 1200080426;
  2821735955; 4249261313; 1770035416; 2336552879; 4294925233; 2304563134;
  1804603682; 4254626195; 2792965006; 1236535329; 4129170786; 3225465664;
  643717713; 3921069994; 3593408605; 38016083; 3634488961; 3889429448;
  568446438; 3275163606; 4107603335; 1163531501; 2850285829; 4243563512;
  1735328473; 2368359562; 4294588738; 2272392833; 1839030562; 4259657740;
  2763975236; 1272893353; 4139469664; 3200236656; 681279174; 3936430074;
  3572445317; 76029189; 3654602809; 3873151461; 530742520; 3299628645;
  4096336452; 1126891415; 2878612391; 4237533241; 1700485571; 2399980690;
  4293915773; 2240044497; 1873313359; 4264355552; 2734768916; 1309151649;
  4149444226; 3174756917; 718787259; 3951481745].

Definition R : list Z := [
  7; 12; 17; 22; 7; 12; 17; 22; 7; 12; 17; 22; 7; 12; 17; 22;
  5; 9; 14; 20; 5; 9; 14; 20; 5; 9; 14; 20; 5; 9; 14; 20;
  4; 11; 16; 23; 4; 11; 16; 23; 4; 11; 16; 23; 4; 11; 16; 23;
  6; 10; 15; 21; 6; 10; 15; 21; 6; 10; 15; 21; 6; 10; 15; 21].

Definition w32 (x : Z) : Z := x mod 2 ^ 32.
Definition rotl (x s : Z) : Z :=
  w32 (Z.lor (Z.shiftl x s) (Z.shiftr x (32 - s))).
Definition not32 (x : Z) : Z := Z.lxor x (2 ^ 32 - 1).

Definition step (M : list Z) (st : Z * Z * Z * Z) (i : nat) : Z * Z * Z * Z :=
  let '(a, b, c, d) := st in
  let iz := Z.of_nat i in
  let '(f, g) :=
    if iz <? 16 then (Z.lor (Z.land b c) (Z.land (not32 b) d), iz)
    else if iz <? 32 then (Z.lor (Z.land d b) (Z.land (not32 d) c), (5 * iz + 1) mod 16)
    else if iz <? 48 then (Z.lxor (Z.lxor b c) d, (3 * iz + 5) mod 16)
    else (Z.lxor c (Z.lor b (not32 d)), (7 * iz) mod 16) in
  let f := w32 (f + a + nth i K 0 + nth (Z.to_nat g) M 0) in
  (d, w32 (b + rotl f (nth i R 0)), b, c).

Definition block (st : Z * Z * Z * Z) (M : list Z) : Z * Z * Z * Z :=
  let '(a, b, c, d) := st in
  let '(a', b', c', d') := fold_left (step M) (seq 0 64) st in
  (w32 (a + a'), w32 (b + b'), w32 (c + c'), w32 (d + d')).

(** [s.encode()]: UTF-8 of code points below 256. *)
Fixpoint encode (s : string) : list Z :=
  match s with
  | EmptyString => []
  | String c s' =>
      let n := Z.of_nat (nat_of_ascii c) in
      if n <? 128 then n :: encode s'
      else (192 + n / 64) :: (128 + n mod 64) :: encode s'
  end.

Definition le_bytes (count : nat) (x : Z) : list Z :=
  map (fun i => (x / 2 ^ (8 * Z.of_nat i)) mod 256) (seq 0 count).

Definition pad (msg : list Z) : list Z :=
  let len := Z.of_nat (length msg) in
  msg ++ [128] ++ repeat 0 (Z.to_nat ((55 - len) mod 64))
      ++ le_bytes 8 ((8 * len) mod 2 ^ 64).

Fixpoint words (bs : list Z) : list Z :=
  match bs with
  | b0 :: b1 :: b2 :: b3 :: bs' =>
      (b0 + 256 * b1 + 65536 * b2 + 16777216 * b3) :: words bs'
  | _ => []
  end.

Fixpoint blocks (fuel : nat) (ws : list Z) : list (list Z) :=
  match fuel, ws with
  | S fuel', _ :: _ => firstn 16 ws :: blocks fuel' (skipn 16 ws)
  | _, _ => []
  end.

Definition hex_digit (n : Z) : ascii :=
  ascii_of_nat (Z.to_nat (if n <? 10 then 48 + n else 87 + n)).

Fixpoint hex (bs : list Z) : string :=
  match bs with
  | [] => EmptyString
  | b :: bs' => String (hex_digit (b / 16)) (String (hex_digit (b mod 16)) (hex bs'))
  end.

(** [hashlib.md5(s.encode()).hexdigest()] *)
Definition hexdigest (s : string) : string :=
  let ws := words (pad (encode s)) in
  let '(a, b, c, d) :=
    fold_left block (blocks (length ws) ws)
      (1732584193, 4023233417, 2562383102, 271733878) in
  hex (le_bytes 4 a ++ le_bytes 4 b ++ le_bytes 4 c ++ le_bytes 4 d).

End Md5.

(** ** JSON text, as [json.dump] writes it and [json.load] reads it

    The model has no floats: a number with a fraction or an exponent is
    not read. *)

Module JsonText.

Definition dquote : ascii := ascii_of_nat 34.

Definition hex_digit (n : nat) : ascii :=
  ascii_of_nat (if (n <? 10)%nat then 48 + n else 87 + n).

(** One character inside a JSON string, as [json.dumps] writes it with
    [ensure_ascii=False]. *)
Definition escape_char (c : ascii) : string :=
  let n := nat_of_ascii c in
  if (n =? 34)%nat then String "\" (String dquote EmptyString)
  else if (n =? 92)%nat then "\\"
  else if (n =? 10)%nat then "\n"
  else if (n =? 13)%nat then "\r"
  else if (n =? 9)%nat then "\t"
  else if (n =? 8)%nat then "\b"
  else if (n =? 12)%nat then "\f"
  else if (n <? 32)%nat then
    "\u00" ++ String (hex_digit (n / 16)) (String (hex_digit (n mod 16)) EmptyString)
  else String c EmptyString.

Fixpoint escape (s : string) : string :=
  match s with
  | EmptyString => EmptyString
  | String c s' => escape_char c ++ escape s'
  end.

Definition dumps_string (s : string) : string :=
  String dquote (escape s ++ String dquote EmptyString).

(** [json.dumps(v, ensure_ascii=False)] *)
Fixpoint dumps (v : pyval) : string :=
  match v with
  | PNone => "null"
  | PBool true => "true"
  | PBool false => "false"
  | PInt z => Str.of_Z z
  | PStr s => dumps_string s
  | PList l =>
      "[" ++
      (fix items (l : list pyval) : string :=
         match l with
         | [] => EmptyString
         | x :: l' =>
             dumps x ++
             match l' with
             | [] => EmptyString
             | _ => ", " ++ items l'
             end
         end) l ++ "]"
  | PDict d =>
      "{" ++
      (fix members (d : list (string * pyval)) : string :=
         match d with
         | [] => EmptyString
         | (k, x) :: d' =>
             dumps_string k ++ ": " ++ dumps x ++
             match d' with
             | [] => EmptyString
             | _ => ", " ++ members d'
             end
         end) d ++ "}"
  end.

Definition is_ws (c : ascii) : bool :=
  let n := nat_of_ascii c in
  ((n =? 32) || (n =? 9) || (n =? 10) || (n =? 13))%nat.

Fixpoint skip_ws (s : string) : string :=
  match s with
  | String c s' => if is_ws c then skip_ws s' else s
  | EmptyString => EmptyString
  end.

Definition hex_value (c : ascii) : option nat :=
  let n := nat_of_ascii c in
  if ((48 <=? n) && (n <=? 57))%nat then Some (n - 48)%nat
  else if ((97 <=? n) && (n <=? 102))%nat then Some (n - 87)%nat
  else if ((65 <=? n) && (n <=? 70))%nat then Some (n - 55)%nat
  else None.

(** The character a [\uXXXX] stands for, when it is below 256. *)
Definition unicode_escape (h1 h2 h3 h4 : ascii) : option ascii :=
  a ← hex_value h1; b ← hex_value h2; c ← hex_value h3; d ← hex_value h4;
  let n := (((a * 16 + b) * 16 + c) * 16 + d)%nat in
  if (n <? 256)%nat then Some (ascii_of_nat n) else None.

Definition push (c : ascii) (r : option (string * string)) : option (string * string) :=
  '(s, rest) ← r; Some (String c s, rest).

(** A string, after its opening quote: the text up to the closing quote,
    and what follows it. *)
Fixpoint parse_string (s : string) : option (string * string) :=
  match s with
  | EmptyString => None
  | String c r =>
      if Ascii.eqb c dquote then Some (EmptyString, r)
      else if Ascii.eqb c "\" then
        match r with
        | String e r' =>
            if Ascii.eqb e dquote then push dquote (parse_string r')
            else if Ascii.eqb e "\" then push "\" (parse_string r')
            else if Ascii.eqb e "/" then push "/" (parse_string r')
            else if Ascii.eqb e "b" then push (ascii_of_nat 8) (parse_string r')
            else if Ascii.eqb e "f" then push (ascii_of_nat 12) (parse_string r')
            else if Ascii.eqb e "n" then push (ascii_of_nat 10) (parse_string r')
            else if Ascii.eqb e "r" then push (ascii_of_nat 13) (parse_string r')
            else if Ascii.eqb e "t" then push (ascii_of_nat 9) (parse_string r')
            else if Ascii.eqb e "u" then
              match r' with
              | String h1 (String h2 (String h3 (String h4 r''))) =>
                  match unicode_escape h1 h2 h3 h4 with
                  | Some u => push u (parse_string r'')
                  | None => None
                  end
              | _ => None
              end
            else None
        | EmptyString => None
        end
      else if (nat_of_ascii c <? 32)%nat then None
      else push c (parse_string r)
  end.

Definition is_num_char (c : ascii) : bool :=
  let n := nat_of_ascii c in
  ((48 <=? n) && (n <=? 57) || (n =? 45))%nat.

(** The longest prefix of digits and minus signs, and the rest. *)
Fixpoint span_num (s : string) : string * string :=
  match s with
  | String c s' =>
      if is_num_char c then let '(t, r) := span_num s' in (String c t, r)
      else (EmptyString, s)
  | EmptyString => (EmptyString, EmptyString)
  end.

(** An integer: the token must be the decimal writing of its value, or
    ["-0"]; a fraction or an exponent makes a float, which the model does
    not have. *)
Definition parse_int (s : string) : option (pyval * string) :=
  let '(t, r) := span_num s in
  let float_follows :=
    match r with
    | String c _ => Ascii.eqb c "." || Ascii.eqb c "e" || Ascii.eqb c "E"
    | EmptyString => false
    end in
  if float_follows then None else
  d ← NilZero.int_of_string t;
  let z := Z.of_int d in
  if String.eqb (Str.of_Z z) t || String.eqb t "-0" then Some (PInt z, r) else None.

Fixpoint strip_prefix (p s : string) : option string :=
  match p, s with
  | EmptyString, _ => Some s
  | String a p', String b s' => if Ascii.eqb a b then strip_prefix p' s' else None
  | String _ _, EmptyString => None
  end.

Definition literal (word : string) (v : pyval) (s : string) : option (pyval * string) :=
  r ← strip_prefix word s; Some (v, r).

(** [d[k] = v] for a key read before the items [d] that follow it: the
    later value wins, at the place of the first. *)
Definition dict_first (k : string) (v : pyval) (d : list (string * pyval))
  : list (string * pyval) :=
  match assoc k d with
  | Some v' => (k, v') :: List.filter (fun kv => negb (String.eqb k kv.1)) d
  | None => (k, v) :: d
  end.

Fixpoint parse_value (fuel : nat) (s : string) : option (pyval * string) :=
  match fuel with
  | O => None
  | S fuel =>
      match skip_ws s with
      | EmptyString => None
      | String c r =>
          if Ascii.eqb c "n" then literal "ull" PNone r
          else if Ascii.eqb c "t" then literal "rue" (PBool true) r
          else if Ascii.eqb c "f" then literal "alse" (PBool false) r
          else if Ascii.eqb c dquote then
            '(str, r') ← parse_string r; Some (PStr str, r')
          else if Ascii.eqb c "[" then
            match skip_ws r with
            | String "]" r' => Some (PList [], r')
            | _ => '(l, r') ← parse_items fuel r; Some (PList l, r')
            end
          else if Ascii.eqb c "{" then
            match skip_ws r with
            | String "}" r' => Some (PDict [], r')
            | _ => '(d, r') ← parse_members fuel r; Some (PDict d, r')
            end
          else parse_int (String c r)
      end
  end
with parse_items (fuel : nat) (s : string) : option (list pyval * string) :=
  match fuel with
  | O => None
  | S fuel =>
      '(v, r) ← parse_value fuel s;
      match skip_ws r with
      | String "," r' => '(l, r'') ← parse_items fuel r'; Some (v :: l, r'')
      | String "]" r' => Some ([v], r')
      | _ => None
      end
  end
with parse_members (fuel : nat) (s : string) : option (list (string * pyval) * string) :=
  match fuel with
  | O => None
  | S fuel =>
      match skip_ws s with
      | String c r =>
          if Ascii.eqb c dquote then
            '(k, r1) ← parse_string r;
            match skip_ws r1 with
            | String ":" r2 =>
                '(v, r3) ← parse_value fuel r2;
                match skip_ws r3 with
                | String "," r4 =>
                    '(d, r5) ← parse_members fuel r4; Some (dict_first k v d, r5)
                | String "}" r4 => Some ([(k, v)], r4)
                | _ => None
                end
            | _ => None
            end
          else None
      | EmptyString => None
      end
  end.

(** [json.loads(s)] *)
Definition loads (s : string) : option pyval :=
  '(v, r) ← parse_value (2 * String.length s + 1) s;
  match skip_ws r with
  | EmptyString => Some v
  | _ => None
  end.

(** The items of a list and of a dictionary, as [dumps] writes them. *)
Fixpoint dumps_items (l : list pyval) : string :=
  match l with
  | [] => EmptyString
  | x :: l' =>
      dumps x ++
      match l' with
      | [] => EmptyString
      | _ => ", " ++ dumps_items l'
      end
  end.

Fixpoint dumps_members (d : list (string * pyval)) : string :=
  match d with
  | [] => EmptyString
  | (k, x) :: d' =>
      dumps_string k ++ ": " ++ dumps x ++
      match d' with
      | [] => EmptyString
      | _ => ", " ++ dumps_members d'
      end
  end.

End JsonText.

(** ** The world: clock, cache directory, download directory, log

    Times are seconds, as exact rationals: [time.time()] and
    [os.path.getmtime] are only subtracted and compared with constants. *)

Definition Qlt_bool (a b : Q) : bool :=
  match (a ?= b)%Q with
  | Lt => true
  | _ => false
  end.

(** A file of the cache directory. [f_readable] tells whether [open] for
    reading succeeds. *)
Record file := File {
  f_mtime : Q;
  f_content : string;
  f_readable : bool
}.

(** A file of the download directory. [e_remove] is what [os.remove] does
    on it: [None] when the file goes, the message of the [OSError] raised
    when it does not. *)
Record entry := Entry {
  e_mtime : Q;
  e_remove : option string
}.

(** Whether [os.remove] succeeds on the file. *)
Definition e_removable (e : entry) : bool :=
  match e_remove e with
  | None => true
  | Some _ => false
  end.

(** How an attempt to write a cache file fares: it succeeds, or [open]
    raises and nothing is touched, or the file is opened (and emptied) and
    the write raises after [n] characters. *)
Inductive write_fault : Type :=
  | WriteOk : write_fault
  | OpenFails : string -> write_fault
  | WriteFails : nat -> string -> write_fault.

Inductive level : Type := INFO | ERROR.

Record world := World {
  w_now : Q;
  w_cache : gmap string file;
  w_downloads : list (string * entry);
  w_write : write_fault;
  w_log : list (level * string)
}.

Definition set_cache (c : gmap string file) (w : world) : world :=
  World (w_now w) c (w_downloads w) (w_write w) (w_log w).
Definition set_downloads (d : list (string * entry)) (w : world) : world :=
  World (w_now w) (w_cache w) d (w_write w) (w_log w).
Definition set_now (t : Q) (w : world) : world :=
  World t (w_cache w) (w_downloads w) (w_write w) (w_log w).
Definition set_write (f : write_fault) (w : world) : world :=
  World (w_now w) (w_cache w) (w_downloads w) f (w_log w).
Definition set_log (l : list (level * string)) (w : world) : world :=
  World (w_now w) (w_cache w) (w_downloads w) (w_write w) l.
Definition add_log (l : level) (msg : string) (w : world) : world :=
  World (w_now w) (w_cache w) (w_downloads w) (w_write w) (w_log w ++ [(l, msg)]).

(** ** Computations on the world

    A computation gives a value or raises, and leaves a world behind in
    both cases: what was done before an exception stays done. *)

Definition M (A : Type) : Type := world -> exc A * world.

#[global] Instance M_ret : MRet M := fun _ x w => (Ok x, w).
#[global] Instance M_bind : MBind M := fun _ _ f m w =>
  match m w with
  | (Ok x, w') => f x w'
  | (Raise e, w') => (Raise e, w')
  end.

Definition raise {A} (e : string) : M A := fun w => (Raise e, w).

Definition lift {A} (r : exc A) : M A := fun w => (r, w).

(** [try: body except Exception as e: handler e] *)
Definition try_except {A} (body : M A) (handler : string -> M A) : M A :=
  fun w =>
    match body w with
    | (Ok x, w') => (Ok x, w')
    | (Raise e, w') => handler e w'
    end.

Definition logger_info (msg : string) : M unit :=
  fun w => (Ok tt, add_log INFO msg w).
Definition logger_error (msg : string) : M unit :=
  fun w => (Ok tt, add_log ERROR msg w).

Definition time_time : M Q := fun w => (Ok (w_now w), w).

(** The values [json] writes and reads back as they are: the keys of a
    dictionary are distinct, as they are in Python. *)
Fixpoint serializable (v : pyval) : bool :=
  match v with
  | PList l => forallb serializable l
  | PDict d =>
      bool_decide (NoDup (d.*1)) &&
      forallb (fun kv => let '(_, x) := kv in serializable x) d
  | _ => true
  end.

(** The external functions: the digest of a URL
    ([hashlib.md5(url.encode()).hexdigest()]), and [json]. The law is what
    app.py relies on: a value written by [json.dump] is read back by
    [json.load]. [Md5.hexdigest], [JsonText.dumps] and [JsonText.loads]
    are the instances. *)
Class Digest := md5_hexdigest : string -> string.

Class Json := {
  json_dumps : pyval -> string;
  json_loads : string -> option pyval;
  json_loads_dumps : forall v, serializable v = true ->
    json_loads (json_dumps v) = Some v
}.

(** What one call of yt-dlp does, seen from app.py: it takes some time,
    leaves files in the download directory, and returns the info
    dictionary or raises. *)
Record extraction := Extraction {
  x_elapsed : Q;
  x_files : list (string * entry);
  x_result : exc pyval
}.

(** What a request draws from outside: the name [uuid.uuid4()] gives and
    the behaviour of yt-dlp. *)
Record call := Call {
  c_uuid : string;
  c_extract : extraction
}.

Inductive request : Type :=
  | GET : request
  | POST : option string -> request.

Section App.

Context `{Digest} `{Json}.

(** *** The cache *)

Definition cache_file (url : string) : string :=
  let url_hash := md5_hexdigest url in
  url_hash ++ ".json".

Definition os_path_exists (name : string) : M bool :=
  fun w => (Ok (bool_decide (is_Some (w_cache w !! name))), w).

Definition os_path_getmtime (name : string) : M Q :=
  fun w =>
    match w_cache w !! name with
    | Some f => (Ok (f_mtime f), w)
    | None => (Raise "[Errno 2] No such file or directory", w)
    end.

(** [with open(name, 'r') as f: json.load(f)] *)
Definition read_json (name : string) : M pyval :=
  fun w =>
    match w_cache w !! name with
    | Some f =>
        if f_readable f then
          match json_loads (f_content f) with
          | Some v => (Ok v, w)
          | None => (Raise "Expecting value", w)
          end
        else (Raise "[Errno 13] Permission denied", w)
    | None => (Raise "[Errno 2] No such file or directory", w)
    end.

(** [with open(name, 'w') as f: json.dump(data, f)]: the file gets the
    time of the write as its modification time. *)
Definition write_json (name : string) (data : pyval) : M unit :=
  fun w =>
    let put (text : string) :=
      let readable := from_option f_readable true (w_cache w !! name) in
      set_cache (<[name := File (w_now w) text readable]> (w_cache w)) w in
    match w_write w with
    | WriteOk => (Ok tt, put (json_dumps data))
    | OpenFails e => (Raise e, w)
    | WriteFails n e => (Raise e, put (string_take n (json_dumps data)))
    end.

Definition get_cached (url : string) : M pyval :=
  let cache_file := cache_file url in
  present ← os_path_exists cache_file;
  if (present : bool) then
    now ← time_time;
    mtime ← os_path_getmtime cache_file;
    if Qlt_bool (now - mtime) 1800 then
      try_except (read_json cache_file) (fun _ => mret PNone)
    else mret PNone
  else mret PNone.

Definition save_cache (url : string) (data : pyval) : M unit :=
  let cache_file := cache_file url in
  try_except (write_json cache_file data)
    (fun e => logger_error ("Error menyimpan cache: " ++ e)).

(** *** The clean-up of old files *)

Fixpoint dir_lookup (name : string) (d : list (string * entry)) : option entry :=
  match d with
  | [] => None
  | (n, e) :: d' => if String.eqb name n then Some e else dir_lookup name d'
  end.

Fixpoint dir_remove (name : string) (d : list (string * entry)) : list (string * entry) :=
  match d with
  | [] => []
  | (n, e) :: d' =>
      if String.eqb name n then dir_remove name d' else (n, e) :: dir_remove name d'
  end.

Definition os_listdir : M (list string) :=
  fun w => (Ok ((w_downloads w).*1), w).

Definition download_getmtime (name : string) : M Q :=
  fun w =>
    match dir_lookup name (w_downloads w) with
    | Some e => (Ok (e_mtime e), w)
    | None => (Raise "[Errno 2] No such file or directory", w)
    end.

Definition os_remove (name : string) : M unit :=
  fun w =>
    match dir_lookup name (w_downloads w) with
    | Some e =>
        match e_remove e with
        | None => (Ok tt, set_downloads (dir_remove name (w_downloads w)) w)
        | Some msg => (Raise msg, w)
        end
    | None => (Raise "[Errno 2] No such file or directory", w)
    end.

(** The [for] loop of [cleanup_old_files] over the names listed. *)
Fixpoint cleanup_loop (now : Q) (names : list string) : M unit :=
  match names with
  | [] => mret tt
  | filename :: names' =>
      mtime ← download_getmtime filename;
      (if Qlt_bool mtime (now - 3600) then
         os_remove filename;;
         logger_info ("File dihapus: " ++ filename)
       else mret tt);;
      cleanup_loop now names'
  end.

Definition cleanup_old_files : M unit :=
  try_except
    (now ← time_time;
     names ← os_listdir;
     cleanup_loop now names)
    (fun e => logger_error ("Error cleanup: " ++ e)).

(** *** The download *)

Definition ydl_extract_info (x : extraction) : M pyval :=
  fun w =>
    (x_result x,
     set_now (w_now w + x_elapsed x)
       (set_downloads (w_downloads w ++ x_files x) w)).

Definition pick_thumbnail (info : pyval) : exc pyval :=
  thumbnail ← py_get info "thumbnail" PNone;
  if negb (truthy thumbnail) then
    thumbnails ← py_get info "thumbnails" (PList []);
    if truthy thumbnails then
      t ← py_last thumbnails; py_get t "url" PNone
    else Ok thumbnail
  else Ok thumbnail.

Definition build_data (info : pyval) (filename : string) : exc pyval :=
  thumbnail ← pick_thumbnail info;
  title ← py_get info "title" (PStr "Video TikTok");
  title ← py_slice_to 100 title;
  duration ← py_get info "duration" (PInt 0);
  uploader ← py_get info "uploader" (PStr "TikTok User");
  like_count ← py_get info "like_count" (PInt 0);
  comment_count ← py_get info "comment_count" (PInt 0);
  repost_count ← py_get info "repost_count" (PInt 0);
  view_count ← py_get info "view_count" (PInt 0);
  Ok (PDict [
    ("title", title);
    ("duration", duration);
    ("uploader", uploader);
    ("like_count", PStr (format_num like_count));
    ("comment_count", PStr (format_num comment_count));
    ("repost_count", PStr (format_num repost_count));
    ("view_count", PStr (format_num view_count));
    ("thumbnail", thumbnail);
    ("file", PStr filename)]).

Definition error_record (msg : string) : pyval := PDict [("error", PStr msg)].

Definition download_tiktok (c : call) (url : string) : M pyval :=
  cached ← get_cached url;
  if truthy cached then
    logger_info ("Menggunakan cache untuk: " ++ string_take 30 url ++ "...");;
    mret cached
  else
    logger_info ("Memulai download: " ++ url);;
    let filename := c_uuid c ++ ".mp4" in
    try_except
      (info ← ydl_extract_info (c_extract c);
       data ← lift (build_data info filename);
       cleanup_old_files;;
       save_cache url data;;
       logger_info ("Download berhasil: " ++ filename);;
       mret data)
      (fun e =>
         logger_error ("Download gagal: " ++ e);;
         mret (error_record ("Error: " ++ string_take 100 e))).

(** *** The worker and the form handler *)

(** What the worker puts in the queue. *)
Definition download_in_thread (c : call) (url : string) : M pyval :=
  try_except (download_tiktok c url) (fun e => mret (error_record e)).

(** [index] gives the [data] it hands to the template. The worker is run
    to its end; the handler finds its result in the queue when the worker
    took less than the 25 seconds of the [join], and an empty queue
    otherwise. *)
Definition index (c : call) (req : request) : M (option pyval) :=
  match req with
  | GET => mret None
  | POST form_url =>
      let url := Str.strip (default "" form_url) in
      if negb (truthy (PStr url)) || negb (Str.contains "tiktok.com" url) then
        mret (Some (error_record "URL TikTok tidak valid"))
      else fun w =>
        let timeout := error_record "Timeout: Proses terlalu lama" in
        match download_in_thread c url w with
        | (Ok result, w') =>
            if Qlt_bool (w_now w' - w_now w) 25
            then (Ok (Some result), w')
            else (Ok (Some timeout), w')
        | (Raise _, w') => (Ok (Some timeout), w')
        end
  end.

End App.

(** *** The port *)


(** *** The file endpoint *)

(** What the view returns: the response that [send_file] made, or a text
    with its status code. *)
Inductive reply (A : Type) : Type :=
  | Sent : A -> reply A
  | Text : string -> Z -> reply A.
Arguments Sent {A} _.
Arguments Text {A} _ _.

(** [flask.send_file(filepath, as_attachment=..., download_name=...)] for
    a file of the download directory, seen from app.py: it gives a
    response or raises, and leaves the files as they are. *)
Class Flask := {
  response : Type;
  send_file : string -> bool -> string -> world -> exc response
}.

Section Files.

Context `{Flask}.

(** [os.path.exists(os.path.join(DOWNLOAD_DIR, filename))], where
    [filename] is one segment of the path of the request: not empty and
    without a slash. The directory itself and its parent exist under the
    names [.] and [..], which [os.listdir] does not list. *)
Definition download_exists (filename : string) : M bool :=
  fun w =>
    (Ok (bool_decide (filename = "." \/ filename = "..") ||
         bool_decide (is_Some (dir_lookup filename (w_downloads w)))), w).

Definition flask_send_file (filename : string) (as_attachment : bool)
    (download_name : string) : M response :=
  fun w => (send_file filename as_attachment download_name w, w).

Definition download_file (filename : string) : M (reply response) :=
  present ← download_exists filename;
  if (present : bool) then
    try_except
      (r ← flask_send_file filename true ("tiktok_video_" ++ filename ++ ".mp4");
       mret (Sent r))
      (fun e => mret (Text ("Error: " ++ e) 500))
  else mret (Text "File tidak ditemukan" 404).

End Files.

(** * Closed forms and predicates of the statements *)

Section ClosedForms.

Context `{Digest} `{Json}.

(** [get_cached] in closed form: it raises nothing and leaves the world as
    it is. *)
Definition cached_value (url : string) (w : world) : pyval :=
  match w_cache w !! cache_file url with
  | Some f =>
      if Qlt_bool (w_now w - f_mtime f) 1800 && f_readable f
      then default PNone (json_loads (f_content f))
      else PNone
  | None => PNone
  end.

(** The world after a write of [text] to the cache file of [url]. *)
Definition put_cache (url text : string) (w : world) : world :=
  let name := cache_file url in
  let readable := from_option f_readable true (w_cache w !! name) in
  set_cache (<[name := File (w_now w) text readable]> (w_cache w)) w.

(** [save_cache] in closed form: whatever the write does, nothing is
    raised. *)
Definition saved (url : string) (data : pyval) (w : world) : world :=
  match w_write w with
  | WriteOk => put_cache url (json_dumps data) w
  | OpenFails e => add_log ERROR ("Error menyimpan cache: " ++ e) w
  | WriteFails n e =>
      add_log ERROR ("Error menyimpan cache: " ++ e)
        (put_cache url (string_take n (json_dumps data)) w)
  end.

(** [download_tiktok] in closed form. *)
Definition extracted (c : call) (url : string) (w : world) : world :=
  let w1 := add_log INFO ("Memulai download: " ++ url) w in
  set_now (w_now w1 + x_elapsed (c_extract c))
    (set_downloads (w_downloads w1 ++ x_files (c_extract c)) w1).

Definition failed (e : string) (w : world) : pyval * world :=
  (error_record ("Error: " ++ string_take 100 e),
   add_log ERROR ("Download gagal: " ++ e) w).

Definition downloaded (c : call) (url : string) (w : world) : pyval * world :=
  let cached := cached_value url w in
  if truthy cached then
    (cached,
     add_log INFO ("Menggunakan cache untuk: " ++ string_take 30 url ++ "...") w)
  else
    let filename := c_uuid c ++ ".mp4" in
    let w2 := extracted c url w in
    match x_result (c_extract c) with
    | Raise e => failed e w2
    | Ok info =>
        match build_data info filename with
        | Raise e => failed e w2
        | Ok data =>
            (data,
             add_log INFO ("Download berhasil: " ++ filename)
               (saved url data (snd (cleanup_old_files w2))))
        end
    end.

End ClosedForms.

Local Open Scope list_scope.

(** The clean-up pass as a function on the listing, for the time [now]
    that the pass reads. *)

Definition is_old (now : Q) (e : entry) : bool :=
  Qlt_bool (e_mtime e) (now - 3600).

(** What the pass leaves of a listing: old files go, until one cannot be
    removed; from there on the listing stays as it is. *)
Fixpoint swept (now : Q) (d : list (string * entry)) : list (string * entry) :=
  match d with
  | [] => []
  | (n, e) :: d' =>
      if is_old now e then
        if e_removable e then swept now d' else (n, e) :: d'
      else (n, e) :: swept now d'
  end.

(** The lines the loop logs. *)
Fixpoint sweep_log (now : Q) (d : list (string * entry)) : list (level * string) :=
  match d with
  | [] => []
  | (n, e) :: d' =>
      if is_old now e then
        if e_removable e
        then (INFO, ("File dihapus: " ++ n)%string) :: sweep_log now d'
        else []
      else sweep_log now d'
  end.

(** How the loop ends. *)
Fixpoint sweep_result (now : Q) (d : list (string * entry)) : exc unit :=
  match d with
  | [] => Ok tt
  | (n, e) :: d' =>
      if is_old now e then
        match e_remove e with
        | None => sweep_result now d'
        | Some msg => Raise msg
        end
      else sweep_result now d'
  end.

(** A listing in which every old file can be removed. *)
Definition removable_olds (now : Q) (d : list (string * entry)) : Prop :=
  forall n e, (n, e) ∈ d -> is_old now e = true -> e_removable e = true.

(** [cleanup_old_files] in closed form. *)
Definition cleaned (w : world) : world :=
  let d := w_downloads w in
  let w' := set_log (w_log w ++ sweep_log (w_now w) d)
              (set_downloads (swept (w_now w) d) w) in
  match sweep_result (w_now w) d with
  | Ok _ => w'
  | Raise e => add_log ERROR ("Error cleanup: " ++ e) w'
  end.

(** [needle] occurs in [hay]. *)
Definition has_substring (needle hay : string) : Prop :=
  exists a b, hay = (a ++ needle ++ b)%string.

(** The record [download_tiktok] builds from the items [d] of the info
    dictionary, once title and thumbnail are settled. *)
Definition record_of (d : list (string * pyval)) (title thumbnail : pyval)
    (filename : string) : pyval :=
  PDict [
    ("title", title);
    ("duration", default (PInt 0) (assoc "duration" d));
    ("uploader", default (PStr "TikTok User") (assoc "uploader" d));
    ("like_count", PStr (format_num (default (PInt 0) (assoc "like_count" d))));
    ("comment_count", PStr (format_num (default (PInt 0) (assoc "comment_count" d))));
    ("repost_count", PStr (format_num (default (PInt 0) (assoc "repost_count" d))));
    ("view_count", PStr (format_num (default (PInt 0) (assoc "view_count" d))));
    ("thumbnail", thumbnail);
    ("file", PStr filename)].

(** A download that does not go through, with the message of the
    exception: yt-dlp raises, or the record cannot be built from what it
    returned. *)
Definition fails_with (c : call) (e : string) : Prop :=
  x_result (c_extract c) = Raise e \/
  exists info, x_result (c_extract c) = Ok info /\
               build_data info (c_uuid c ++ ".mp4") = Raise e.

(** The digits of [hexdigest]. *)
Definition is_hex (c : ascii) : bool :=
  let n := nat_of_ascii c in
  ((48 <=? n) && (n <=? 57) || (97 <=? n) && (n <=? 102))%nat.

Fixpoint all_hex (s : string) : bool :=
  match s with
  | EmptyString => true
  | String c s' => is_hex c && all_hex s'
  end.

(** A record of a download that went through. *)
Definition success_record (v : pyval) : Prop :=
  exists info filename, build_data info filename = Ok v.

Section CacheInvariant.

Context `{Json}.

(** Every file of the cache holds the JSON text of such a record. *)
Definition cache_clean (w : world) : Prop :=
  forall name f, w_cache w !! name = Some f ->
    exists v, success_record v /\ serializable v = true /\
              f_content f = json_dumps v.

End CacheInvariant.


(** * Properties *)

Example format_num_999 : format_num (PInt 999) = "999".
Proof. reflexivity. Qed.
Example format_num_1500 : format_num (PInt 1500) = "1.5K".
Proof. vm_compute. reflexivity. Qed.
Example format_num_2300000 : format_num (PInt 2300000) = "2.3Jt".
Proof. vm_compute. reflexivity. Qed.

(** ** JSON: what [dumps] writes, [loads] reads back *)

Module JsonFacts.
Import JsonText.

Local Open Scope string_scope.

Lemma app_cons c (a r : string) : String c a ++ r = String c (a ++ r).
Proof. reflexivity. Qed.

Lemma app_nil (r : string) : "" ++ r = r.
Proof. reflexivity. Qed.

Lemma app_nil_r (a : string) : a ++ "" = a.
Proof. induction a as [|x a IH]; rewrite ?app_nil, ?app_cons; congruence. Qed.

Lemma app_assoc (a b c : string) : (a ++ b) ++ c = a ++ b ++ c.
Proof. induction a as [|x a IH]; rewrite ?app_nil, ?app_cons; congruence. Qed.

Lemma length_app (a b : string) :
  String.length (a ++ b) = (String.length a + String.length b)%nat.
Proof. induction a as [|x a IH]; rewrite ?app_nil, ?app_cons; simpl; congruence. Qed.

(** *** Strings *)

Lemma parse_string_escape_char c tail :
  parse_string (escape_char c ++ tail) = push c (parse_string tail).
Proof. destruct c as [[] [] [] [] [] [] [] []]; reflexivity. Qed.

Lemma parse_string_escape s rest :
  parse_string (escape s ++ String dquote rest) = Some (s, rest).
Proof.
  induction s as [|c s IH].
  - reflexivity.
  - simpl escape. rewrite app_assoc, parse_string_escape_char, IH. reflexivity.
Qed.

(** *** Integers *)

Fixpoint all_num (s : string) : bool :=
  match s with
  | EmptyString => true
  | String c s' => is_num_char c && all_num s'
  end.

Lemma all_num_uint d : all_num (NilEmpty.string_of_uint d) = true.
Proof. induction d; simpl; auto. Qed.

Lemma all_num_of_Z z : all_num (Str.of_Z z) = true.
Proof.
  unfold Str.of_Z, NilZero.string_of_int, NilZero.string_of_uint.
  destruct (Z.to_int z) as [d|d]; destruct d; simpl; auto using all_num_uint.
Qed.

(** What may follow a value: not something that would go on a number. *)
Definition sep_ok (rest : string) : bool :=
  match rest with
  | EmptyString => true
  | String c _ =>
      negb (is_num_char c || Ascii.eqb c "." || Ascii.eqb c "e" || Ascii.eqb c "E")
  end.

Lemma span_num_app t rest :
  all_num t = true -> sep_ok rest = true -> span_num (t ++ rest) = (t, rest).
Proof.
  intros Ht Hrest. induction t as [|c t IH].
  - rewrite app_nil. destruct rest as [|c r]; [done|]. simpl in *.
    destruct (is_num_char c); [done|reflexivity].
  - rewrite app_cons. simpl in *. apply andb_true_iff in Ht as [-> Ht].
    by rewrite IH.
Qed.

Lemma to_int_proper z :
  Z.to_int z <> Decimal.Pos Decimal.Nil /\ Z.to_int z <> Decimal.Neg Decimal.Nil.
Proof.
  destruct z as [|p|p]; simpl; split; try discriminate;
    intros [= Hp]; by apply (Unsigned.to_uint_nonnil p).
Qed.

Lemma parse_int_of_Z z rest :
  sep_ok rest = true -> parse_int (Str.of_Z z ++ rest) = Some (PInt z, rest).
Proof.
  intros Hrest. unfold parse_int.
  rewrite span_num_app by auto using all_num_of_Z.
  assert (Hfl : match rest with
                | String c _ => Ascii.eqb c "." || Ascii.eqb c "e" || Ascii.eqb c "E"
                | EmptyString => false
                end = false).
  { destruct rest as [|c r]; [done|]. simpl in Hrest.
    apply negb_true_iff in Hrest. rewrite !orb_false_iff in Hrest.
    destruct Hrest as [[[_ ->] ->] ->]. done. }
  cbv beta iota. rewrite Hfl. unfold Str.of_Z.
  destruct (to_int_proper z) as [H1 H2].
  rewrite NilZero.isi by done. simpl.
  rewrite DecimalZ.of_to, String.eqb_refl. done.
Qed.


(** *** Values *)

Lemma dumps_list l : dumps (PList l) = "[" ++ dumps_items l ++ "]".
Proof. reflexivity. Qed.

Lemma dumps_dict d : dumps (PDict d) = "{" ++ dumps_members d ++ "}".
Proof. reflexivity. Qed.

(** An induction principle that reaches the items of lists and
    dictionaries. *)
Section pyval_induction.

Variable P : pyval -> Prop.
Hypothesis HNone : P PNone.
Hypothesis HBool : forall b, P (PBool b).
Hypothesis HInt : forall z, P (PInt z).
Hypothesis HStr : forall s, P (PStr s).
Hypothesis HList : forall l, Forall P l -> P (PList l).
Hypothesis HDict : forall d, Forall (fun kv => P kv.2) d -> P (PDict d).

Fixpoint pyval_induction (v : pyval) : P v :=
  match v with
  | PNone => HNone
  | PBool b => HBool b
  | PInt z => HInt z
  | PStr s => HStr s
  | PList l =>
      HList l
        ((fix go (l : list pyval) : Forall P l :=
            match l with
            | [] => @List.Forall_nil _ P
            | x :: l' => @List.Forall_cons _ P x l' (pyval_induction x) (go l')
            end) l)
  | PDict d =>
      HDict d
        ((fix go (d : list (string * pyval)) : Forall (fun kv => P kv.2) d :=
            match d with
            | [] => @List.Forall_nil _ _
            | (k, x) :: d' =>
                @List.Forall_cons _ (fun kv => P kv.2) (k, x) d'
                  (pyval_induction x) (go d')
            end) d)
  end.

End pyval_induction.

(** The first character of a value written by [dumps]. *)
Definition value_start (c : ascii) : bool :=
  is_num_char c || Ascii.eqb c "n" || Ascii.eqb c "t" || Ascii.eqb c "f"
  || Ascii.eqb c dquote || Ascii.eqb c "[" || Ascii.eqb c "{".

Lemma of_Z_head z : exists c t, Str.of_Z z = String c t /\ is_num_char c = true.
Proof.
  pose proof (all_num_of_Z z) as Hall.
  destruct (Str.of_Z z) as [|c t] eqn:Hz.
  - exfalso. unfold Str.of_Z, NilZero.string_of_int, NilZero.string_of_uint in Hz.
    destruct (to_int_proper z) as [H1 H2].
    destruct (Z.to_int z) as [d|d]; destruct d; done.
  - exists c, t. simpl in Hall. apply andb_true_iff in Hall as [Hc _]. done.
Qed.

Lemma dumps_head v : exists c t, dumps v = String c t /\ value_start c = true.
Proof.
  destruct v as [|[]|z|s|l|d]; try (by eexists _, _).
  destruct (of_Z_head z) as (c & t & Hz & Hc). exists c, t.
  split; [done|]. unfold value_start. by rewrite Hc.
Qed.

Lemma skip_ws_value_start c t :
  value_start c = true -> skip_ws (String c t) = String c t.
Proof.
  intros Hc. simpl. destruct (is_ws c) eqn:Hws; [|done].
  exfalso. revert Hc Hws.
  destruct c as [[] [] [] [] [] [] [] []]; vm_compute; congruence.
Qed.

Lemma skip_ws_keep c t : is_ws c = false -> skip_ws (String c t) = String c t.
Proof. intros Hc. simpl. by rewrite Hc. Qed.

Lemma parse_value_space fuel s :
  parse_value fuel (String " " s) = parse_value fuel s.
Proof. by destruct fuel. Qed.

Lemma parse_items_space fuel s :
  parse_items fuel (String " " s) = parse_items fuel s.
Proof. destruct fuel; [done|]. simpl. by rewrite parse_value_space. Qed.

Lemma parse_members_space fuel s :
  parse_members fuel (String " " s) = parse_members fuel s.
Proof. by destruct fuel. Qed.

Lemma parse_value_int fuel c t :
  is_num_char c = true ->
  parse_value (S fuel) (String c t) = parse_int (String c t).
Proof.
  intros Hc. revert Hc.
  destruct c as [[] [] [] [] [] [] [] []]; vm_compute is_num_char;
    intros [=]; reflexivity.
Qed.

Lemma assoc_None k (d : list (string * pyval)) : k ∉ d.*1 -> assoc k d = None.
Proof.
  induction d as [|[k' x] d IH]; simpl; [done|].
  rewrite not_elem_of_cons. intros [Hne Hd].
  apply String.eqb_neq in Hne. rewrite Hne. auto.
Qed.

(** The statement of the round trip for one value. *)
Definition reads_back (v : pyval) : Prop :=
  serializable v = true ->
  forall fuel rest, sep_ok rest = true ->
    (2 * String.length (dumps v ++ rest) + 1 <= fuel)%nat ->
    parse_value fuel (dumps v ++ rest) = Some (v, rest).


Lemma parse_items_S fuel s :
  parse_items (S fuel) s =
  '(v, r) ← parse_value fuel s;
  match skip_ws r with
  | String "," r' => '(l, r'') ← parse_items fuel r'; Some (v :: l, r'')
  | String "]" r' => Some ([v], r')
  | _ => None
  end.
Proof. reflexivity. Qed.

Lemma parse_members_S fuel s :
  parse_members (S fuel) s =
  match skip_ws s with
  | String c r =>
      if Ascii.eqb c dquote then
        '(k, r1) ← parse_string r;
        match skip_ws r1 with
        | String ":" r2 =>
            '(v, r3) ← parse_value fuel r2;
            match skip_ws r3 with
            | String "," r4 =>
                '(d, r5) ← parse_members fuel r4; Some (dict_first k v d, r5)
            | String "}" r4 => Some ([(k, v)], r4)
            | _ => None
            end
        | _ => None
        end
      else None
  | EmptyString => None
  end.
Proof. reflexivity. Qed.

Lemma parse_items_dumps l :
  l <> [] -> Forall reads_back l -> forallb serializable l = true ->
  forall fuel rest,
    (2 * String.length (dumps_items l ++ String "]" rest) + 2 <= fuel)%nat ->
    parse_items fuel (dumps_items l ++ String "]" rest) = Some (l, rest).
Proof.
  induction l as [|x l IH]; [done|].
  intros _ [Hx Hl]%Forall_cons [Hsx Hsl]%andb_true_iff fuel rest Hfuel.
  destruct fuel as [|fuel]; [lia|].
  simpl dumps_items in *. rewrite app_assoc in *.
  rewrite length_app in Hfuel. rewrite parse_items_S.
  destruct l as [|y l].
  - rewrite app_nil in *. rewrite (Hx Hsx); [done|done|].
    rewrite length_app. lia.
  - rewrite app_assoc in *. rewrite (Hx Hsx); [|done|].
    + change (", " ++ ?s) with (String "," (String " " s)).
      cbn [mbind option_bind].
      rewrite (skip_ws_keep ","%char) by done.
      rewrite parse_items_space.
      rewrite IH; [done|done|done|done|].
      change (", " ++ ?s) with (String "," (String " " s)) in Hfuel.
      cbn [String.length] in Hfuel. lia.
    + rewrite length_app. lia.
Qed.


Ltac length_lia :=
  repeat match goal with
  | H : (_ <= _)%nat |- _ =>
      first [ progress rewrite length_app in H
            | progress cbn [String.length fst snd] in H ]
  end;
  repeat first [ progress rewrite length_app
               | progress cbn [String.length fst snd] ];
  lia.

Lemma parse_members_dumps d :
  d <> [] -> Forall (fun kv => reads_back kv.2) d -> NoDup (d.*1) ->
  forallb (fun kv => let '(_, x) := kv in serializable x) d = true ->
  forall fuel rest,
    (2 * String.length (dumps_members d ++ String "}" rest) + 2 <= fuel)%nat ->
    parse_members fuel (dumps_members d ++ String "}" rest) = Some (d, rest).
Proof.
  induction d as [|[k x] d IH]; [done|].
  intros _ [Hx Hd]%Forall_cons [Hk Hnd]%NoDup_cons [Hsx Hsd]%andb_true_iff
    fuel rest Hfuel.
  destruct fuel as [|fuel]; [lia|].
  cbn [dumps_members fst snd] in *. unfold dumps_string in *.
  rewrite !app_assoc, !app_cons, !app_assoc, !app_cons, !app_nil in *.
  change (": " ++ ?s) with (String ":" (String " " s)) in *.
  rewrite parse_members_S, (skip_ws_keep dquote) by done.
  rewrite Ascii.eqb_refl, parse_string_escape. cbn [mbind option_bind].
  rewrite (skip_ws_keep ":"%char) by done. rewrite parse_value_space.
  destruct d as [|[k' y] d].
  - rewrite app_nil in *. rewrite (Hx Hsx); [done|done|length_lia].
  - change (", " ++ ?s) with (String "," (String " " s)) in *.
    rewrite !app_cons in Hfuel |- *.
    rewrite (Hx Hsx); [|done|length_lia].
    cbn [mbind option_bind].
    rewrite (skip_ws_keep ","%char) by done.
    rewrite parse_members_space.
    rewrite IH; [|done|done|done|done|length_lia].
    cbn [mbind option_bind]. unfold dict_first.
    by rewrite assoc_None.
Qed.

(** [dumps] then [parse_value], with anything after the value that could
    not go on a number. *)
Lemma parse_value_dumps v : reads_back v.
Proof.
  induction v as [| b | z | s | l IH | d IH] using pyval_induction;
    intros Hser fuel rest Hrest Hfuel;
    (destruct fuel as [|fuel]; [lia|]).
  - reflexivity.
  - by destruct b.
  - destruct (of_Z_head z) as (c & t & Hz & Hc).
    change (dumps (PInt z)) with (Str.of_Z z). rewrite Hz, app_cons.
    rewrite parse_value_int by done. rewrite <- app_cons, <- Hz.
    by apply parse_int_of_Z.
  - change (dumps (PStr s)) with (dumps_string s). unfold dumps_string.
    rewrite app_cons, app_assoc, app_cons, app_nil.
    change (parse_value (S fuel) (String dquote ?r)) with
      ('(str, r') ← parse_string r; Some (PStr str, r')).
    by rewrite parse_string_escape.
  - rewrite dumps_list in *. rewrite !app_assoc, !app_cons, !app_nil in *.
    cbn [String.length] in Hfuel.
    change (parse_value (S fuel) (String "[" ?r)) with
      (match skip_ws r with
       | String "]" r' => Some (PList [], r')
       | _ => '(l, r') ← parse_items fuel r; Some (PList l, r')
       end).
    destruct l as [|x l]; [done|].
    destruct (dumps_head x) as (c & t & Hx & Hc).
    assert (Hskip : skip_ws (dumps_items (x :: l) ++ String "]" rest) =
                    String c (t ++ match l with [] => "" | _ => ", " ++ dumps_items l end
                                ++ String "]" rest)).
    { cbn [dumps_items]. rewrite Hx, !app_cons, !app_assoc.
      by apply skip_ws_value_start. }
    rewrite Hskip.
    assert (Hnot : c <> "]"%char) by (intros ->; done).
    rewrite parse_items_dumps; [|done|done|done|length_lia].
    destruct c as [[] [] [] [] [] [] [] []]; done.
  - rewrite dumps_dict in *. rewrite !app_assoc, !app_cons, !app_nil in *.
    cbn [String.length] in Hfuel.
    change (parse_value (S fuel) (String "{" ?r)) with
      (match skip_ws r with
       | String "}" r' => Some (PDict [], r')
       | _ => '(d, r') ← parse_members fuel r; Some (PDict d, r')
       end).
    destruct d as [|[k x] d]; [done|].
    cbn [serializable] in Hser. apply andb_true_iff in Hser as [Hnd Hser].
    apply bool_decide_eq_true in Hnd.
    rewrite parse_members_dumps; [|done|done|done|done|length_lia].
    cbn [dumps_members]. unfold dumps_string.
    rewrite !app_assoc, !app_cons. rewrite (skip_ws_keep dquote) by done.
    done.
Qed.

Theorem loads_dumps v : serializable v = true -> loads (dumps v) = Some v.
Proof.
  intros Hser. unfold loads.
  rewrite <- (app_nil_r (dumps v)) at 2.
  rewrite parse_value_dumps; [done|done|done|].
  rewrite app_nil_r. lia.
Qed.

End JsonFacts.

(** The digest and the JSON functions of the Python library, as the
    instances the closed examples run with. *)
#[global] Instance md5_digest : Digest := Md5.hexdigest.

#[global] Instance python_json : Json := {|
  json_dumps := JsonText.dumps;
  json_loads := JsonText.loads;
  json_loads_dumps := JsonFacts.loads_dumps
|}.


Lemma Qlt_bool_true a b : Qlt_bool a b = true <-> (a < b)%Q.
Proof.
  unfold Qlt_bool. rewrite Qlt_alt. destruct (a ?= b)%Q; split; congruence.
Qed.

Lemma Qlt_bool_false a b : Qlt_bool a b = false <-> (b <= a)%Q.
Proof.
  rewrite <- not_true_iff_false, Qlt_bool_true. split.
  - apply Qnot_lt_le.
  - apply Qle_not_lt.
Qed.

Section CacheFacts.

Context `{Digest} `{Json}.

Lemma get_cached_eq url w : get_cached url w = (Ok (cached_value url w), w).
Proof.
  unfold get_cached, cached_value, os_path_exists, os_path_getmtime,
    time_time, try_except, read_json, mbind, M_bind, mret, M_ret.
  destruct (w_cache w !! cache_file url) as [f|] eqn:Hf; simpl.
  - rewrite Hf; simpl.
    destruct (Qlt_bool _ _); simpl; [|done].
    rewrite Hf. destruct (f_readable f); simpl; [|done].
    by destruct (json_loads _).
  - done.
Qed.

(** C1. An entry whose file was written 1800 seconds ago or more is not
    returned: [get_cached] gives [None] for it, though the file is still
    there; and what [get_cached] returns other than [None] is the content
    of a file written less than 1800 seconds ago. *)
Theorem get_cached_expiry url w :
  (forall f, w_cache w !! cache_file url = Some f ->
     (1800 <= w_now w - f_mtime f)%Q ->
     get_cached url w = (Ok PNone, w)) /\
  (forall r v w', get_cached url w = (r, w') -> r = Ok v -> v <> PNone ->
     exists f, w_cache w !! cache_file url = Some f /\
       (w_now w - f_mtime f < 1800)%Q /\
       json_loads (f_content f) = Some v).
Proof.
  split.
  - intros f Hf Hold. rewrite get_cached_eq. unfold cached_value.
    rewrite Hf. apply Qlt_bool_false in Hold. by rewrite Hold.
  - intros r v w'. rewrite get_cached_eq. intros [= <- <-] [= <-] Hv.
    unfold cached_value in *.
    destruct (w_cache w !! cache_file url) as [f|]; [|done].
    exists f. split; [done|].
    destruct (Qlt_bool _ _) eqn:Hlt; simpl in Hv; [|done].
    apply Qlt_bool_true in Hlt. split; [done|].
    destruct (f_readable f); simpl in Hv; [|done].
    by destruct (json_loads _).
Qed.

Lemma save_cache_eq url data w : save_cache url data w = (Ok tt, saved url data w).
Proof.
  unfold save_cache, saved, try_except, write_json, logger_error, put_cache.
  by destruct (w_write w).
Qed.

Lemma cleanup_old_files_ok w : fst (cleanup_old_files w) = Ok tt.
Proof.
  unfold cleanup_old_files, try_except, logger_error.
  match goal with
  | |- context [match ?body with _ => _ end] => by destruct body as [[[]|e] w']
  end.
Qed.

Lemma cleanup_old_files_eq w :
  cleanup_old_files w = (Ok tt, snd (cleanup_old_files w)).
Proof.
  rewrite <- (cleanup_old_files_ok w). by destruct (cleanup_old_files w).
Qed.

Lemma download_tiktok_eq c url w :
  download_tiktok c url w =
  (Ok (fst (downloaded c url w)), snd (downloaded c url w)).
Proof.
  unfold download_tiktok, downloaded, mbind, M_bind.
  rewrite get_cached_eq. destruct (truthy (cached_value url w)); [done|].
  unfold try_except, ydl_extract_info, logger_info, lift, extracted; simpl.
  destruct (x_result (c_extract c)) as [info|e]; [|done].
  destruct (build_data info _) as [data|e]; [|done].
  rewrite cleanup_old_files_eq, save_cache_eq. done.
Qed.

End CacheFacts.

(** ** The clean-up pass as a function on the listing *)

Section Sweep.

Variable now : Q.

Lemma dir_lookup_None n (d : list (string * entry)) :
  n ∉ d.*1 -> dir_lookup n d = None.
Proof.
  induction d as [|[n' e] d IH]; simpl; [done|].
  rewrite not_elem_of_cons. intros [Hne Hd].
  apply String.eqb_neq in Hne. rewrite Hne. auto.
Qed.

Lemma dir_remove_id n (d : list (string * entry)) :
  n ∉ d.*1 -> dir_remove n d = d.
Proof.
  induction d as [|[n' e] d IH]; simpl; [done|].
  rewrite not_elem_of_cons. intros [Hne Hd].
  apply String.eqb_neq in Hne. rewrite Hne. f_equal. auto.
Qed.

Lemma dir_lookup_middle (n : string) (e : entry) (kept d : list (string * entry)) :
  NoDup ((kept ++ (n, e) :: d)%list.*1) ->
  dir_lookup n (kept ++ (n, e) :: d) = Some e.
Proof.
  induction kept as [|[n' e'] kept IH]; simpl.
  - by rewrite String.eqb_refl.
  - rewrite NoDup_cons. intros [Hn' Hnd].
    destruct (String.eqb_spec n n') as [->|Hne]; [|auto].
    exfalso. apply Hn'. rewrite fmap_app, elem_of_app. right. simpl. left.
Qed.

Lemma dir_remove_middle (n : string) (e : entry) (kept d : list (string * entry)) :
  NoDup ((kept ++ (n, e) :: d)%list.*1) ->
  dir_remove n (kept ++ (n, e) :: d) = kept ++ d.
Proof.
  induction kept as [|[n' e'] kept IH]; simpl.
  - rewrite String.eqb_refl, NoDup_cons. intros [Hn _]. by apply dir_remove_id.
  - rewrite NoDup_cons. intros [Hn' Hnd].
    destruct (String.eqb_spec n n') as [->|Hne].
    + exfalso. apply Hn'. rewrite fmap_app, elem_of_app. right. simpl. left.
    + f_equal. auto.
Qed.

Lemma NoDup_middle_drop (n : string) (e : entry) (kept d : list (string * entry)) :
  NoDup ((kept ++ (n, e) :: d)%list.*1) -> NoDup ((kept ++ d)%list.*1).
Proof.
  rewrite !fmap_app. simpl. rewrite !NoDup_app, NoDup_cons.
  intros (Hk & Hdis & _ & Hd). split_and!; [done| |done].
  intros x Hx Hxd. apply (Hdis x Hx). by right.
Qed.

Lemma cleanup_loop_eq kept d w :
  w_downloads w = kept ++ d -> NoDup ((kept ++ d)%list.*1) ->
  cleanup_loop now (d.*1) w =
  (sweep_result now d,
   set_log (w_log w ++ sweep_log now d) (set_downloads (kept ++ swept now d) w)).
Proof.
  revert kept w. induction d as [|[n e] d IH]; intros kept w Hw Hnd; simpl.
  - destruct w; simpl in *. unfold mret, M_ret, set_log, set_downloads; simpl.
    by rewrite Hw, !app_nil_r.
  - unfold mbind, M_bind, download_getmtime.
    rewrite Hw, (dir_lookup_middle _ _ _ _ Hnd). fold (is_old now e).
    destruct (is_old now e) eqn:Hold.
    + unfold os_remove, e_removable.
      rewrite Hw, (dir_lookup_middle _ _ _ _ Hnd).
      destruct (e_remove e) as [msg|] eqn:Hrm.
      * destruct w; simpl in *. unfold set_log, set_downloads; simpl.
        by rewrite Hw, app_nil_r.
      * rewrite (dir_remove_middle _ _ _ _ Hnd). unfold logger_info.
        fold (@mbind M _ unit unit). unfold mbind, M_bind in IH.
        rewrite (IH kept); simpl;
          [|done|by apply NoDup_middle_drop in Hnd].
        f_equal. unfold set_log, set_downloads, add_log; simpl.
        by rewrite <- app_assoc.
    + unfold mret, M_ret. unfold mbind, M_bind in IH.
      rewrite (IH (kept ++ [(n, e)])); rewrite <- ?app_assoc; simpl; done.
Qed.

End Sweep.

Lemma is_old_true now e : is_old now e = true <-> (e_mtime e < now - 3600)%Q.
Proof. apply Qlt_bool_true. Qed.

Lemma is_old_false now e : is_old now e = false <-> (now - 3600 <= e_mtime e)%Q.
Proof. apply Qlt_bool_false. Qed.

Lemma removable_olds_cons now n e d :
  removable_olds now ((n, e) :: d) ->
  (is_old now e = true -> e_removable e = true) /\ removable_olds now d.
Proof.
  intros Hd. split.
  - apply (Hd n). left.
  - intros n' e' Hin Hold. apply (Hd n' e'); [by right|done].
Qed.

Lemma swept_filter now d :
  removable_olds now d ->
  swept now d = List.filter (fun p => negb (is_old now p.2)) d /\
  sweep_result now d = Ok tt /\
  sweep_log now d =
    (fun p => (INFO, ("File dihapus: " ++ p.1)%string)) <$>
      List.filter (fun p => is_old now p.2) d.
Proof.
  induction d as [|[n e] d IH]; simpl; [done|].
  intros [He Hd]%removable_olds_cons. destruct (IH Hd) as (IH1 & IH2 & IH3).
  destruct (is_old now e); simpl.
  - specialize (He eq_refl). unfold e_removable in *.
    destruct (e_remove e); [done|]. by rewrite IH3.
  - by rewrite IH1.
Qed.

(** The pass stops at the first old file that cannot be removed. *)
Lemma swept_stop now pre n e msg post :
  removable_olds now pre ->
  is_old now e = true -> e_remove e = Some msg ->
  swept now (pre ++ (n, e) :: post) =
    List.filter (fun p => negb (is_old now p.2)) pre ++ (n, e) :: post /\
  sweep_result now (pre ++ (n, e) :: post) = Raise msg.
Proof.
  intros Hpre Hold Hrm. induction pre as [|[n' e'] pre IH]; simpl.
  - unfold e_removable. by rewrite Hold, Hrm.
  - apply removable_olds_cons in Hpre as [He' Hpre].
    destruct (IH Hpre) as [IH1 IH2].
    destruct (is_old now e'); simpl.
    + specialize (He' eq_refl). unfold e_removable in *.
      by destruct (e_remove e').
    + by rewrite IH1.
Qed.

(** A file that is not old stays, whatever happens to the others. *)
Lemma swept_keeps_young now d n e :
  (n, e) ∈ d -> is_old now e = false -> (n, e) ∈ swept now d.
Proof.
  induction d as [|[n' e'] d IH]; simpl; [by rewrite elem_of_nil|].
  rewrite elem_of_cons. intros [[= -> ->]|Hin] Hyoung.
  - rewrite Hyoung. left.
  - destruct (is_old now e'); [destruct (e_removable e')|].
    + auto.
    + by right.
    + right. auto.
Qed.

Lemma swept_subset now d n e : (n, e) ∈ swept now d -> (n, e) ∈ d.
Proof.
  induction d as [|[n' e'] d IH]; simpl; [done|].
  destruct (is_old now e'); [destruct (e_removable e')|].
  - intros Hin. right. auto.
  - done.
  - rewrite !elem_of_cons. intros [?|?]; auto.
Qed.

Lemma cleanup_old_files_cleaned w :
  NoDup ((w_downloads w).*1) -> cleanup_old_files w = (Ok tt, cleaned w).
Proof.
  intros Hnd. unfold cleanup_old_files, cleaned, try_except, time_time, os_listdir.
  unfold mbind at 1 2, M_bind.
  rewrite (cleanup_loop_eq (w_now w) [] (w_downloads w) w); [|done..].
  by destruct (sweep_result _ _) as [[]|e].
Qed.

(** The pass touches the download directory and the log, nothing else. *)
Definition same_files (w w' : world) : Prop :=
  w_cache w' = w_cache w /\ w_now w' = w_now w /\ w_write w' = w_write w.

Lemma cleanup_loop_frame now names w :
  same_files w (snd (cleanup_loop now names w)).
Proof.
  revert w. induction names as [|n names IH]; intros w; [done|].
  cbn [cleanup_loop]. unfold mbind, M_bind, download_getmtime.
  destruct (dir_lookup n (w_downloads w)) as [e|] eqn:Hn; [|done].
  destruct (Qlt_bool _ _).
  - unfold os_remove. rewrite Hn.
    destruct (e_remove e) as [msg|]; [done|]. unfold logger_info.
    match goal with
    | |- same_files _ (snd (cleanup_loop now names ?w1)) =>
        destruct (IH w1) as (Hc & Ht & Hw)
    end.
    split_and!; [by rewrite Hc|by rewrite Ht|by rewrite Hw].
  - unfold mret, M_ret. apply IH.
Qed.

Lemma cleanup_old_files_frame w : same_files w (snd (cleanup_old_files w)).
Proof.
  unfold cleanup_old_files, try_except, time_time, os_listdir.
  unfold mbind at 1 2, M_bind.
  pose proof (cleanup_loop_frame (w_now w) ((w_downloads w).*1) w) as Hfr.
  by destruct (cleanup_loop _ _ w) as [[[]|e] w1].
Qed.

(** C6, as the code has it. A deletion that fails is caught and logged and
    never reaches the caller, but it ends the pass: the files listed before
    the failing one are treated, the failing file and all the files listed
    after it stay, old or not. *)
Theorem cleanup_stops_at_failure w pre n e msg post :
  w_downloads w = pre ++ (n, e) :: post ->
  NoDup ((w_downloads w).*1) ->
  removable_olds (w_now w) pre ->
  (e_mtime e < w_now w - 3600)%Q ->
  e_remove e = Some msg ->
  exists w',
    cleanup_old_files w = (Ok tt, w') /\
    w_downloads w' =
      List.filter (fun p => negb (is_old (w_now w) p.2)) pre ++ (n, e) :: post /\
    last (w_log w') = Some (ERROR, ("Error cleanup: " ++ msg)%string).
Proof.
  intros Hw Hnd Hpre Hold%is_old_true Hrm.
  exists (cleaned w). split; [by apply cleanup_old_files_cleaned|].
  unfold cleaned. rewrite Hw.
  destruct (swept_stop (w_now w) pre n e msg post Hpre Hold Hrm) as [-> ->].
  simpl. split; [done|]. by rewrite last_snoc.
Qed.

Section DownloadFacts.

Context `{Digest} `{Json}.

Lemma w_downloads_saved url data w :
  w_downloads (saved url data w) = w_downloads w.
Proof. unfold saved. by destruct (w_write w). Qed.

Lemma w_downloads_cleaned w :
  w_downloads (cleaned w) = swept (w_now w) (w_downloads w).
Proof. unfold cleaned. by destruct (sweep_result _ _). Qed.

(** The world and the value of a download that went through: nothing
    cached, yt-dlp returned [info], and the record was built from it. *)
Lemma downloaded_success c url w info data :
  truthy (cached_value url w) = false ->
  x_result (c_extract c) = Ok info ->
  build_data info (c_uuid c ++ ".mp4") = Ok data ->
  downloaded c url w =
  (data,
   add_log INFO ("Download berhasil: " ++ (c_uuid c ++ ".mp4"))
     (saved url data (snd (cleanup_old_files (extracted c url w))))).
Proof. intros Hc Hx Hb. unfold downloaded. by rewrite Hc, Hx, Hb. Qed.

(** C7, as the code has it. After an extraction that succeeded, the files
    that are not more than 3600 seconds old are all still there, and, when
    no deletion fails, the files of the download directory afterwards are
    exactly those: every file older than 3600 seconds is gone. The time is
    the one read after the extraction. *)
Theorem cleanup_after_success c url w info data :
  truthy (cached_value url w) = false ->
  x_result (c_extract c) = Ok info ->
  build_data info (c_uuid c ++ ".mp4") = Ok data ->
  let before := w_downloads w ++ x_files (c_extract c) in
  let now := (w_now w + x_elapsed (c_extract c))%Q in
  let after := w_downloads (snd (download_tiktok c url w)) in
  NoDup (before.*1) ->
  (forall n e, (n, e) ∈ before -> (now - 3600 <= e_mtime e)%Q -> (n, e) ∈ after) /\
  (removable_olds now before ->
   forall n e, (n, e) ∈ after <->
               (n, e) ∈ before /\ (now - 3600 <= e_mtime e)%Q).
Proof.
  intros Hc Hx Hb before now after Hnd.
  assert (Hafter : after = swept now before).
  { unfold after. rewrite download_tiktok_eq; simpl.
    rewrite (downloaded_success c url w info data) by done. simpl.
    rewrite w_downloads_saved, cleanup_old_files_cleaned by done.
    simpl. by rewrite w_downloads_cleaned. }
  rewrite Hafter. split.
  - intros n e Hin Hyoung%is_old_false. by apply swept_keeps_young.
  - intros Hrm n e. destruct (swept_filter now before Hrm) as (-> & _ & _).
    rewrite list_elem_of_In, filter_In, <- list_elem_of_In. simpl.
    by rewrite negb_true_iff, is_old_false.
Qed.

Lemma w_cache_cleaned w : w_cache (cleaned w) = w_cache w.
Proof. unfold cleaned. by destruct (sweep_result _ _). Qed.

Lemma w_now_cleaned w : w_now (cleaned w) = w_now w.
Proof. unfold cleaned. by destruct (sweep_result _ _). Qed.

Lemma w_write_cleaned w : w_write (cleaned w) = w_write w.
Proof. unfold cleaned. by destruct (sweep_result _ _). Qed.

Lemma cached_value_ext url w1 w2 :
  w_cache w1 !! cache_file url = w_cache w2 !! cache_file url ->
  w_now w1 = w_now w2 ->
  cached_value url w1 = cached_value url w2.
Proof. unfold cached_value. by intros -> ->. Qed.

(** The entry a write that succeeded leaves in the cache. *)
Lemma saved_lookup url data w :
  w_write w = WriteOk ->
  w_cache (saved url data w) !! cache_file url =
  Some (File (w_now w) (json_dumps data)
          (from_option f_readable true (w_cache w !! cache_file url))).
Proof.
  intros Hw. unfold saved, put_cache. rewrite Hw. simpl.
  by rewrite lookup_insert_eq.
Qed.


(** C4, as the code has it. On a miss, an extraction that fails gives an
    error record to the caller and leaves the cache as it was: no entry is
    made for a failure. An extraction that succeeds calls [save_cache],
    which, when the write succeeds, puts the record under the digest of
    the URL. *)
Theorem cache_entry_only_on_success c url w :
  truthy (cached_value url w) = false ->
  let filename := (c_uuid c ++ ".mp4")%string in
  let result := fst (download_tiktok c url w) in
  let w' := snd (download_tiktok c url w) in
  (forall e, x_result (c_extract c) = Raise e ->
     result = Ok (error_record ("Error: " ++ string_take 100 e)) /\
     w_cache w' = w_cache w) /\
  (forall info e, x_result (c_extract c) = Ok info ->
     build_data info filename = Raise e ->
     result = Ok (error_record ("Error: " ++ string_take 100 e)) /\
     w_cache w' = w_cache w) /\
  (forall info data, x_result (c_extract c) = Ok info ->
     build_data info filename = Ok data ->
     w_write w = WriteOk ->
     result = Ok data /\
     exists f, w_cache w' !! cache_file url = Some f /\
               f_content f = json_dumps data /\
               f_mtime f = (w_now w + x_elapsed (c_extract c))%Q).
Proof.
  intros Hc filename result w'. subst result w'.
  rewrite download_tiktok_eq. simpl. split_and!.
  - intros e Hx. unfold downloaded. by rewrite Hc, Hx.
  - intros info e Hx Hb. unfold downloaded.
    fold filename. by rewrite Hc, Hx, Hb.
  - intros info data Hx Hb Hw.
    rewrite (downloaded_success c url w info data) by done. simpl.
    split; [done|].
    destruct (cleanup_old_files_frame (extracted c url w)) as (_ & Hnow & Hwr).
    rewrite saved_lookup by (by rewrite Hwr).
    eexists. split; [done|]. simpl. by rewrite Hnow.
Qed.

(** C5. Faults of the cache stay inside. [get_cached] raises nothing,
    whatever the state of the file, and gives [None] for a file that
    cannot be read or parsed. [save_cache] raises nothing, and logs an
    error when the write fails. And the answer of [download_tiktok] is the
    same whether the write fails or not. *)
Theorem cache_faults_stay_inside url data c w :
  (exists v, get_cached url w = (Ok v, w) /\
     forall f, w_cache w !! cache_file url = Some f ->
       f_readable f = false \/ json_loads (f_content f) = None ->
       v = PNone) /\
  (exists w', save_cache url data w = (Ok tt, w') /\
     forall e, (w_write w = OpenFails e \/ exists n, w_write w = WriteFails n e) ->
       last (w_log w') = Some (ERROR, ("Error menyimpan cache: " ++ e)%string)) /\
  (forall fault,
     fst (download_tiktok c url (set_write fault w)) =
     fst (download_tiktok c url w) /\
     exists v, fst (download_tiktok c url w) = Ok v).
Proof.
  split_and!.
  - exists (cached_value url w). split; [apply get_cached_eq|].
    intros f Hf Hbad. unfold cached_value. rewrite Hf.
    destruct (Qlt_bool _ _); [|done].
    destruct Hbad as [-> | ->]; simpl; [done | by destruct (f_readable f)].
  - exists (saved url data w). split; [apply save_cache_eq|].
    intros e [Hw | [n Hw]]; unfold saved; rewrite Hw; simpl;
      by rewrite last_snoc.
  - intros fault. rewrite !download_tiktok_eq. simpl. split; [|by eexists].
    f_equal. unfold downloaded.
    rewrite (cached_value_ext url (set_write fault w) w) by done.
    destruct (truthy _); [done|].
    destruct (x_result _) as [info|e]; [|done].
    by destruct (build_data _ _).
Qed.


End DownloadFacts.

(** ** The test of the form value *)

Section Substring.

Local Open Scope string_scope.

Lemma append_cons c (a r : string) : String c a ++ r = String c (a ++ r).
Proof. reflexivity. Qed.

Lemma append_nil (r : string) : "" ++ r = r.
Proof. reflexivity. Qed.

Lemma append_assoc (a b c : string) : (a ++ b) ++ c = a ++ b ++ c.
Proof. induction a as [|x a IH]; rewrite ?append_nil, ?append_cons; congruence. Qed.

Lemma prefix_spec a b : Str.starts_with a b = true <-> exists r, b = a ++ r.
Proof.
  revert b. induction a as [|c a IH]; intros b; simpl.
  - split; [intros _; exists b; reflexivity|done].
  - destruct b as [|c' b].
    + split; [done|]. intros [r Hr]. discriminate.
    + setoid_rewrite append_cons.
      destruct (Ascii.eqb_spec c c') as [->|Hne]; simpl.
      * rewrite IH. split; intros [r Hr]; exists r; congruence.
      * split; [done|]. intros [r Hr]. congruence.
Qed.

Lemma contains_spec needle hay :
  Str.contains needle hay = true <-> has_substring needle hay.
Proof.
  unfold has_substring. induction hay as [|c hay IH]; simpl.
  - rewrite orb_false_r, prefix_spec. split.
    + intros [r Hr]. exists "", r. exact Hr.
    + intros ([|? a] & b & Hab); [by exists b|discriminate].
  - rewrite orb_true_iff, prefix_spec, IH. split.
    + intros [[r Hr]|(a & b & Hab)].
      * exists "", r. exact Hr.
      * exists (String c a), b. rewrite append_cons. by rewrite Hab.
    + intros ([|c' a] & b & Hab).
      * left. by exists b.
      * right. exists a, b. rewrite append_cons in Hab. congruence.
Qed.

Lemma lstrip_suffix s : exists p, s = p ++ Str.lstrip s.
Proof.
  induction s as [|c s [p Hp]]; simpl.
  - by exists "".
  - destruct (Str.is_space c).
    + exists (String c p). rewrite append_cons. by rewrite <- Hp.
    + by exists "".
Qed.

Lemma rstrip_prefix s : exists q, s = Str.rstrip s ++ q.
Proof.
  induction s as [|c s [q Hq]]; simpl.
  - by exists "".
  - destruct (Str.rstrip s) as [|c' t] eqn:Hr.
    + destruct (Str.is_space c).
      * by exists (String c s).
      * exists s. done.
    + exists q. rewrite append_cons. by rewrite <- Hq.
Qed.

(** What is found in the stripped value is in the value. *)
Lemma has_substring_strip needle s :
  has_substring needle (Str.strip s) -> has_substring needle s.
Proof.
  intros (a & b & Hab). unfold Str.strip in Hab.
  destruct (lstrip_suffix s) as [p Hp].
  destruct (rstrip_prefix (Str.lstrip s)) as [q Hq].
  exists (p ++ a), (b ++ q).
  rewrite Hp at 1. rewrite Hq at 1. rewrite Hab.
  by rewrite !append_assoc.
Qed.

End Substring.

Section Handler.

Context `{Digest} `{Json}.

(** C8. A form value that is empty once stripped, or in which
    [tiktok.com] does not occur, is answered with the validation error,
    and the world is left as it was: nothing is read, written or logged,
    and the answer does not depend on what yt-dlp would have done. The
    same holds when the form has no [url] field. *)
Theorem index_rejects_invalid_url c form_url w :
  (forall raw, form_url = Some raw ->
     Str.strip raw = ""%string \/ ~ has_substring "tiktok.com" raw) ->
  index c (POST form_url) w =
  (Ok (Some (error_record "URL TikTok tidak valid")), w).
Proof.
  intros Hbad. unfold index.
  destruct form_url as [raw|]; simpl; [|done].
  destruct (Hbad raw eq_refl) as [-> | Hno]; [done|].
  destruct (Str.contains "tiktok.com" (Str.strip raw)) eqn:Hc.
  - exfalso. apply Hno, has_substring_strip. by apply contains_spec.
  - by rewrite orb_true_r.
Qed.

End Handler.

(** ** The number [format_num] shows *)

Module FloatFacts.
Import Float.

Lemma rne_near a b : 0 < b -> Z.abs (2 * (a - rne a b * b)) <= b.
Proof.
  intros Hb. unfold rne.
  pose proof (Z.div_mod a b ltac:(lia)) as Hdiv.
  pose proof (Z.mod_pos_bound a b Hb) as Hmod.
  destruct (Z.compare_spec (2 * (a mod b)) b) as [Heq|Hlt|Hgt];
    [destruct (Z.even (a / b))|..]; nia.
Qed.

Lemma rne_nonneg a b : 0 <= a -> 0 < b -> 0 <= rne a b.
Proof.
  intros Ha Hb. unfold rne.
  pose proof (Z.div_pos a b Ha Hb).
  destruct (_ ?= _); [destruct (Z.even _)|..]; lia.
Qed.

(** The exponent brackets the quotient. *)
Lemma exponent_spec n d :
  0 < d <= n ->
  0 <= exponent n d /\
  d * 2 ^ exponent n d <= n < d * 2 ^ (exponent n d + 1).
Proof.
  intros [Hd Hn]. unfold exponent.
  pose proof (Z.log2_spec n ltac:(lia)) as [Hn1 Hn2].
  pose proof (Z.log2_spec d Hd) as [Hd1 Hd2].
  pose proof (Z.log2_le_mono d n Hn) as Hk.
  pose proof (Z.log2_nonneg d) as Hld.
  set (k := Z.log2 n - Z.log2 d) in *.
  assert (Hnk : Z.log2 n = Z.log2 d + k) by lia.
  rewrite Hnk in Hn1, Hn2.
  replace (Z.succ (Z.log2 d + k)) with (Z.log2 d + (k + 1)) in Hn2 by lia.
  rewrite Z.pow_add_r in Hn1, Hn2 by lia.
  replace (Z.succ (Z.log2 d)) with (Z.log2 d + 1) in Hd2 by lia.
  rewrite Z.pow_add_r, Z.pow_1_r in Hd2 by lia.
  assert (0 < 2 ^ k) by (apply Z.pow_pos_nonneg; lia).
  assert (H2k : 2 ^ (k + 1) = 2 * 2 ^ k)
    by (rewrite Z.pow_add_r, Z.pow_1_r by lia; lia).
  destruct (Z.ltb_spec n (d * 2 ^ k)) as [Hlt|Hge].
  - assert (0 < k).
    { destruct (Z.eq_dec k 0) as [Hk0|]; [|lia].
      rewrite Hk0, Z.pow_0_r in Hlt. lia. }
    replace (k - 1 + 1) with k by lia.
    assert (H2k' : 2 ^ k = 2 * 2 ^ (k - 1)).
    { replace k with (k - 1 + 1) at 1 by lia.
      rewrite Z.pow_add_r, Z.pow_1_r by lia. lia. }
    split; [lia|]. split; [|lia]. nia.
  - split; [lia|]. split; [lia|]. rewrite H2k. nia.
Qed.

(** For a quotient below [2^53], the tenths shown are the tenths nearest
    to the quotient itself, although the quotient was rounded to a float
    in between. [d] is 1000 or 1000000: a multiple of 20. *)
Lemma tenths_nearest n d x :
  (20 | d) -> 0 < d <= n -> n < 2 ^ 53 ->
  true_div n d = Ok x ->
  Z.abs (2 * (10 * n - tenths x * d)) <= d /\ 0 <= tenths x.
Proof.
  intros [q Hq] Hdn Hn Hx. unfold true_div in Hx.
  destruct (Z.eqb_spec d 0); [lia|].
  destruct (exponent_spec n d Hdn) as (He0 & He1 & He2).
  set (e := exponent n d) in *.
  assert (He : e <= 52).
  { destruct (Z_le_gt_dec e 52) as [|Hgt]; [done|].
    assert (2 ^ 53 <= 2 ^ e) by (apply Z.pow_le_mono_r; lia). nia. }
  destruct (Z.leb_spec e 52); [|lia].
  destruct (_ || _); [done|]. injection Hx as <-.
  set (S := 2 ^ (52 - e)).
  assert (HS : 0 < S) by (apply Z.pow_pos_nonneg; lia).
  assert (HSe : S * 2 ^ e = 2 ^ 52).
  { unfold S. rewrite <- Z.pow_add_r by lia. f_equal. lia. }
  assert (H2S : d < 2 * S).
  { assert (d * 2 ^ e < 2 * S * 2 ^ e); [|nia].
    replace (2 * S * 2 ^ e) with (2 ^ 53) by (rewrite <- Z.mul_assoc, HSe; done).
    lia. }
  set (m := rne (n * S) d).
  pose proof (rne_near (n * S) d ltac:(lia)) as Hm. fold m in Hm.
  assert (Hm0 : 0 <= m) by (apply rne_nonneg; nia).
  assert (Hr : exists r, tenths (m, e - 52) = r /\
                         Z.abs (2 * (10 * m - r * S)) <= S /\ 0 <= r).
  { unfold tenths. destruct (Z.leb_spec 0 (e - 52)).
    - assert (e = 52) as He52 by lia. exists (10 * m).
      replace (e - 52) with 0 by lia. rewrite Z.pow_0_r.
      unfold S. replace (52 - e) with 0 by lia. rewrite Z.pow_0_r.
      split; [lia|]. lia.
    - replace (- (e - 52)) with (52 - e) by lia. fold S.
      exists (rne (10 * m) S). split; [done|]. split.
      + apply rne_near; lia.
      + apply rne_nonneg; lia. }
  destruct Hr as (r & -> & Hr & Hr0). split; [|done].
  set (T := 2 * (10 * n - r * d)).
  set (A := 2 * (n * S - m * d)) in *.
  set (B := 2 * (10 * m - r * S)) in *.
  assert (HTS : T * S = 10 * A + d * B) by (unfold T, A, B; ring).
  assert (HT20 : T = 20 * (n - 2 * r * q)) by (unfold T; rewrite Hq; ring).
  apply Z.abs_le in Hm, Hr. apply Z.abs_le.
  assert (d * B <= d * S) by (apply Z.mul_le_mono_nonneg_l; lia).
  assert (d * - S <= d * B) by (apply Z.mul_le_mono_nonneg_l; lia).
  clearbody T A B S m.
  split.
  - destruct (Z_le_gt_dec (- d) T) as [|Hbig]; [done|exfalso].
    assert (T <= - (d + 20)) by lia.
    assert (T * S <= - (d + 20) * S) by (apply Z.mul_le_mono_nonneg_r; lia).
    lia.
  - destruct (Z_le_gt_dec T d) as [|Hbig]; [done|exfalso].
    assert (d + 20 <= T) by lia.
    assert ((d + 20) * S <= T * S) by (apply Z.mul_le_mono_nonneg_r; lia).
    lia.
Qed.

(** Below [2^1023] the division does not overflow. *)
Lemma true_div_finite n d :
  0 < d <= n -> n < 2 ^ 1023 -> exists x, true_div n d = Ok x.
Proof.
  intros Hdn Hn. unfold true_div.
  destruct (Z.eqb_spec d 0); [lia|].
  destruct (exponent_spec n d Hdn) as (He0 & He1 & He2).
  set (e := exponent n d) in *.
  assert (He : e < 1023).
  { destruct (Z_lt_ge_dec e 1023) as [|Hge]; [done|].
    assert (2 ^ 1023 <= 2 ^ e) by (apply Z.pow_le_mono_r; lia). nia. }
  destruct (Z.ltb_spec 1023 e); [lia|].
  destruct (Z.eqb_spec e 1023); [lia|]. simpl. by eexists.
Qed.

End FloatFacts.


Lemma format_num_thousands n x :
  1000 <= n < 1000000 -> Float.true_div n 1000 = Ok x ->
  format_num (PInt n) = (Float.format_1f x ++ "K")%string.
Proof.
  intros Hn Hx. unfold format_num, format_num_body, py_int, mbind, exc_bind.
  destruct (Z.leb_spec 1000000 n); [lia|].
  destruct (Z.leb_spec 1000 n); [|lia]. by rewrite Hx.
Qed.



(** * Concrete runs

    The theorems above are applied to worlds small enough to evaluate,
    with the real digest and the real JSON text. *)

Module Run.

Definition url : string := "https://www.tiktok.com/@user/video/1".

(** What yt-dlp returns for a video. *)
Definition info : pyval := PDict [
  ("title", PStr "Tari");
  ("duration", PInt 15);
  ("uploader", PStr "user");
  ("like_count", PInt 1500);
  ("view_count", PInt 2300000);
  ("thumbnails", PList [PDict [("url", PStr "https://p16.tiktokcdn.com/a.jpg")]])].

(** The record [download_tiktok] makes of it, for the file name [u.mp4]. *)
Definition data : pyval := PDict [
  ("title", PStr "Tari");
  ("duration", PInt 15);
  ("uploader", PStr "user");
  ("like_count", PStr "1.5K");
  ("comment_count", PStr "0");
  ("repost_count", PStr "0");
  ("view_count", PStr "2.3Jt");
  ("thumbnail", PStr "https://p16.tiktokcdn.com/a.jpg");
  ("file", PStr "u.mp4")].

(** Files of the download directory: two written at time 0, of which one
    cannot be removed, one written at time 9000, and the one that the
    download leaves at time 10003. *)
Definition old : entry := Entry 0 None.
Definition locked : entry := Entry 0 (Some "[Errno 13] Permission denied: a.mp4").
Definition young : entry := Entry 9000 None.
Definition fresh : entry := Entry 10003 None.

(** A download that works, in 3 seconds, and one that fails. *)
Definition works : call :=
  Call "u" (Extraction 3 [("u.mp4", fresh)] (Ok info)).
Definition fails : call :=
  Call "u" (Extraction 3 [] (Raise "ERROR: Unable to download webpage")).

(** An empty world at time 10000. *)
Definition empty : world := World 10000 ∅ [] WriteOk [].

(** The cache holds the record, written at time [t]. *)
Definition cached_at (t : Q) : world :=
  World 10000 {[ cache_file url := File t (json_dumps data) true ]} [] WriteOk [].

(** The disk is full: the cache file cannot be opened for writing. *)
Definition full : world :=
  World 10000 ∅ [] (OpenFails "[Errno 28] No space left on device") [].


(** The download directory lists an old file that cannot be removed, then
    an old file that can, then a young one. *)
Definition stuck : world :=
  World 10000 ∅
    [("a.mp4", locked); ("b.mp4", old); ("c.mp4", young)]
    WriteOk [].

(** The same listing with every file removable. *)
Definition tidy : world :=
  World 10000 ∅
    [("a.mp4", old); ("b.mp4", old); ("c.mp4", young)]
    WriteOk [].

End Run.

Example cache_file_of_url :
  cache_file Run.url = "8661d41e941f42113bb228844bb4a5c2.json"%string.
Proof. by vm_compute. Qed.

Example build_data_of_info : build_data Run.info "u.mp4" = Ok Run.data.
Proof. by vm_compute. Qed.

Lemma removable_olds_forallb now d :
  forallb (fun p => implb (is_old now p.2) (e_removable p.2)) d = true ->
  removable_olds now d.
Proof.
  intros Hall n e Hin Hold. rewrite forallb_forall in Hall.
  apply list_elem_of_In in Hin. specialize (Hall _ Hin). simpl in Hall.
  by rewrite Hold in Hall.
Qed.

(** C1, on a run. *)
Lemma get_cached_expiry_run :
  get_cached Run.url (Run.cached_at 8200) = (Ok PNone, Run.cached_at 8200) /\
  exists f, w_cache (Run.cached_at 9000) !! cache_file Run.url = Some f /\
    (w_now (Run.cached_at 9000) - f_mtime f < 1800)%Q /\
    json_loads (f_content f) = Some Run.data.
Proof.
  split.
  - apply (proj1 (get_cached_expiry Run.url (Run.cached_at 8200)))
      with (File 8200 (json_dumps Run.data) true).
    + apply lookup_singleton_eq.
    + by vm_compute.
  - apply (proj2 (get_cached_expiry Run.url (Run.cached_at 9000)))
      with (r := Ok Run.data) (w' := Run.cached_at 9000).
    + by vm_compute.
    + reflexivity.
    + discriminate.
Defined.





(** C4, on two runs: a download that fails and one that works. *)
Lemma cache_entry_only_on_success_run :
  (fst (download_tiktok Run.fails Run.url Run.empty) =
     Ok (error_record "Error: ERROR: Unable to download webpage") /\
   w_cache (snd (download_tiktok Run.fails Run.url Run.empty)) = w_cache Run.empty) /\
  (fst (download_tiktok Run.works Run.url Run.empty) = Ok Run.data /\
   exists f, w_cache (snd (download_tiktok Run.works Run.url Run.empty))
               !! cache_file Run.url = Some f /\
             f_content f = json_dumps Run.data /\
             f_mtime f = (w_now Run.empty + x_elapsed (c_extract Run.works))%Q).
Proof.
  split.
  - apply (proj1 (cache_entry_only_on_success Run.fails Run.url Run.empty eq_refl)
             "ERROR: Unable to download webpage").
    reflexivity.
  - apply (proj2 (proj2
             (cache_entry_only_on_success Run.works Run.url Run.empty eq_refl)))
      with Run.info.
    + reflexivity.
    + by vm_compute.
    + reflexivity.
Defined.

(** C4 as stated fails: after a download that failed, the cache has no
    entry for the URL. *)
Lemma failure_is_not_cached :
  fst (download_tiktok Run.fails Run.url Run.empty) =
    Ok (error_record "Error: ERROR: Unable to download webpage") /\
  w_cache (snd (download_tiktok Run.fails Run.url Run.empty)) = ∅ /\
  fst (get_cached Run.url (snd (download_tiktok Run.fails Run.url Run.empty))) = Ok PNone.
Proof. by vm_compute. Qed.

(** C5, on a run: the disk is full, and [save_cache] returns all the
    same. *)
Lemma cache_faults_stay_inside_run :
  exists w', save_cache Run.url Run.data Run.full = (Ok tt, w') /\
    forall e, (w_write Run.full = OpenFails e \/
               exists n, w_write Run.full = WriteFails n e) ->
      last (w_log w') = Some (ERROR, ("Error menyimpan cache: " ++ e)%string).
Proof.
  apply (proj1 (proj2 (cache_faults_stay_inside Run.url Run.data Run.works Run.full))).
Defined.

(** C6, on a run: the first file listed cannot be removed. *)
Lemma cleanup_stops_at_failure_run :
  exists w',
    cleanup_old_files Run.stuck = (Ok tt, w') /\
    w_downloads w' =
      [("a.mp4", Run.locked); ("b.mp4", Run.old); ("c.mp4", Run.young)] /\
    last (w_log w') =
      Some (ERROR, "Error cleanup: [Errno 13] Permission denied: a.mp4"%string).
Proof.
  apply (cleanup_stops_at_failure Run.stuck [] "a.mp4"
           Run.locked
           "[Errno 13] Permission denied: a.mp4"
           [("b.mp4", Run.old); ("c.mp4", Run.young)]).
  - reflexivity.
  - apply (bool_decide_unpack _). by vm_compute.
  - by apply removable_olds_forallb.
  - by vm_compute.
  - reflexivity.
Defined.

(** C6 as stated fails: [b.mp4] is old and can be removed, but it is
    listed after [a.mp4], whose removal fails, and it is still there after
    the pass. *)
Lemma cleanup_abandons_later_files :
  fst (cleanup_old_files Run.stuck) = Ok tt /\
  is_old (w_now Run.stuck) Run.old = true /\
  dir_lookup "b.mp4" (w_downloads (snd (cleanup_old_files Run.stuck))) =
    Some Run.old.
Proof. by vm_compute. Qed.

(** C7, on a run: every file can be removed; the young [c.mp4] stays and
    the old [a.mp4] is there afterwards only if it is not old. *)
Lemma cleanup_after_success_run :
  ("c.mp4", Run.young) ∈
    w_downloads (snd (download_tiktok Run.works Run.url Run.tidy)) /\
  (("a.mp4", Run.old) ∈
     w_downloads (snd (download_tiktok Run.works Run.url Run.tidy)) <->
   ("a.mp4", Run.old) ∈ w_downloads Run.tidy ++ x_files (c_extract Run.works) /\
   (w_now Run.tidy + x_elapsed (c_extract Run.works) - 3600 <= 0)%Q).
Proof.
  destruct (cleanup_after_success Run.works Run.url Run.tidy Run.info Run.data
              eq_refl eq_refl) as [Hkeep Hall].
  - by vm_compute.
  - apply (bool_decide_unpack _). by vm_compute.
  - split.
    + apply Hkeep; [|by vm_compute]. simpl. repeat constructor.
    + apply Hall. by apply removable_olds_forallb.
Defined.

(** C7 as stated fails: the extraction succeeds, and the old file
    [b.mp4], which could be removed, is still in the download directory
    afterwards. *)
Lemma success_leaves_old_file :
  fst (download_tiktok Run.works Run.url Run.stuck) = Ok Run.data /\
  is_old (10000 + 3) Run.old = true /\
  w_downloads (snd (download_tiktok Run.works Run.url Run.stuck)) =
    [("a.mp4", Run.locked); ("b.mp4", Run.old);
     ("c.mp4", Run.young); ("u.mp4", Run.fresh)].
Proof. by vm_compute. Qed.

(** C8, on a run. *)
Lemma index_rejects_invalid_url_run :
  index Run.works (POST (Some "  https://www.youtube.com/watch?v=1 ")) Run.empty =
  (Ok (Some (error_record "URL TikTok tidak valid")), Run.empty).
Proof.
  apply index_rejects_invalid_url. intros raw [= <-]. right.
  intros Hsub%contains_spec. by vm_compute in Hsub.
Defined.




(** * More of app.py

    What follows leaves the statements of the specification: properties
    of the record a download returns, of the failures, of the worker and
    the two handlers, of the clean-up pass and of the counters, read off
    the code. *)

(** ** Slices of strings *)

Lemma string_take_length n s : (String.length (string_take n s) <= n)%nat.
Proof.
  revert s. induction n as [|n IH]; intros [|c s]; simpl; try lia.
  specialize (IH s). lia.
Qed.

Lemma string_take_all n s : (String.length s <= n)%nat -> string_take n s = s.
Proof.
  revert s. induction n as [|n IH]; intros [|c s]; simpl; try done; try lia.
  intros Hn. f_equal. apply IH. lia.
Qed.

Lemma string_take_prefix n s : exists r, s = (string_take n s ++ r)%string.
Proof.
  revert s. induction n as [|n IH]; intros [|c s]; simpl.
  - by exists ""%string.
  - by exists (String c s).
  - by exists ""%string.
  - destruct (IH s) as [r Hr]. exists r. rewrite append_cons. by rewrite <- Hr.
Qed.

(** ** The record of a download *)

Lemma build_data_dict d fn :
  build_data (PDict d) fn =
  (thumbnail ← pick_thumbnail (PDict d);
   title ← py_slice_to 100 (default (PStr "Video TikTok") (assoc "title" d));
   Ok (record_of d title thumbnail fn)).
Proof. reflexivity. Qed.

(** Only a dictionary gives a record, and the record is [record_of]. *)
Lemma build_data_inv info fn data :
  build_data info fn = Ok data ->
  exists d thumbnail title,
    info = PDict d /\
    pick_thumbnail info = Ok thumbnail /\
    py_slice_to 100 (default (PStr "Video TikTok") (assoc "title" d)) = Ok title /\
    data = record_of d title thumbnail fn.
Proof.
  destruct info as [| | | | |d]; try discriminate.
  rewrite build_data_dict. unfold mbind, exc_bind.
  destruct (pick_thumbnail (PDict d)) as [thumbnail|] eqn:Ht; [|discriminate].
  destruct (py_slice_to 100 _) as [title|] eqn:Hs; [|discriminate].
  intros [= <-]. by exists d, thumbnail, title.
Qed.

Lemma build_data_truthy info fn data :
  build_data info fn = Ok data -> truthy data = true.
Proof.
  intros (d & thumbnail & title & _ & _ & _ & ->)%build_data_inv. reflexivity.
Qed.

Lemma serializable_assoc d k v :
  serializable (PDict d) = true -> assoc k d = Some v -> serializable v = true.
Proof.
  simpl. intros [_ Hall]%andb_prop. revert Hall.
  induction d as [|[k' v'] d IH]; simpl; [done|].
  intros [Hv' Hd]%andb_prop. destruct (String.eqb k k'); [congruence|auto].
Qed.

Lemma serializable_default d k v dflt :
  serializable (PDict d) = true -> serializable dflt = true ->
  default dflt (assoc k d) = v -> serializable v = true.
Proof.
  intros Hd Hdflt <-. destruct (assoc k d) as [x|] eqn:Hk; simpl; [|done].
  by apply (serializable_assoc d k).
Qed.

Lemma serializable_last l x :
  forallb serializable l = true -> last l = Some x -> serializable x = true.
Proof.
  intros Hall Hx. rewrite forallb_forall in Hall. apply Hall.
  apply list_elem_of_In. apply last_Some in Hx as [l' ->].
  rewrite elem_of_app. right. left.
Qed.

Lemma serializable_take n l :
  forallb serializable l = true -> forallb serializable (take n l) = true.
Proof.
  rewrite !forallb_forall. intros Hall x Hx. apply Hall.
  apply list_elem_of_In. apply list_elem_of_In in Hx.
  by apply (subseteq_take n l).
Qed.

Lemma py_slice_to_serializable n v r :
  serializable v = true -> py_slice_to n v = Ok r -> serializable r = true.
Proof.
  destruct v as [| | |s|l|d]; simpl; try discriminate.
  - by intros _ [= <-].
  - intros Hl [= <-]. simpl. by apply serializable_take.
Qed.

Lemma py_get_serializable v k dflt r :
  serializable v = true -> serializable dflt = true ->
  py_get v k dflt = Ok r -> serializable r = true.
Proof.
  destruct v as [| | | | |d]; simpl; try discriminate.
  intros Hd Hdflt [= Hr]. by apply (serializable_default d k r dflt).
Qed.

Lemma pick_thumbnail_serializable info t :
  serializable info = true -> pick_thumbnail info = Ok t -> serializable t = true.
Proof.
  intros Hinfo. unfold pick_thumbnail, mbind, exc_bind.
  destruct (py_get info "thumbnail" PNone) as [first|] eqn:H1; [|discriminate].
  pose proof (py_get_serializable info "thumbnail" PNone first Hinfo eq_refl H1)
    as Hfirst.
  destruct (truthy first); simpl; [by intros [= <-]|].
  destruct (py_get info "thumbnails" (PList [])) as [ths|] eqn:H2; [|discriminate].
  pose proof (py_get_serializable info "thumbnails" (PList []) ths Hinfo eq_refl H2)
    as Hths.
  destruct (truthy ths); [|by intros [= <-]].
  destruct (py_last ths) as [x|] eqn:H3; [|discriminate].
  intros Hx. apply (py_get_serializable x "url" PNone); [|done..].
  destruct ths as [| | |s|l|d]; simpl in H3; try discriminate.
  - destruct (string_last s); [|discriminate]. by injection H3 as <-.
  - destruct (last l) as [y|] eqn:Hl; [|discriminate]. injection H3 as <-.
    by apply (serializable_last l).
Qed.

Lemma build_data_serializable info fn data :
  build_data info fn = Ok data -> serializable info = true ->
  serializable data = true.
Proof.
  intros (d & thumbnail & title & -> & Ht & Hs & ->)%build_data_inv Hinfo.
  pose proof (pick_thumbnail_serializable _ _ Hinfo Ht) as Hthumb.
  assert (Htitle : serializable title = true).
  { apply (py_slice_to_serializable 100
             (default (PStr "Video TikTok") (assoc "title" d))); [|done].
    by apply (serializable_default d "title" _ (PStr "Video TikTok")). }
  pose proof (serializable_default d "duration" _ (PInt 0) Hinfo eq_refl eq_refl)
    as Hdur.
  pose proof (serializable_default d "uploader" _ (PStr "TikTok User")
                Hinfo eq_refl eq_refl) as Hupl.
  unfold record_of.
  change (serializable (PDict ?l)) with
    (bool_decide (NoDup (l.*1)) &&
     forallb (fun kv => let '(_, x) := kv in serializable x) l).
  apply andb_true_intro. split.
  - by vm_compute.
  - cbn [forallb]. rewrite Htitle, Hdur, Hupl, Hthumb. reflexivity.
Qed.

Lemma success_record_no_error v msg : success_record v -> v <> error_record msg.
Proof.
  intros (info & fn & (d & th & ti & _ & _ & _ & ->)%build_data_inv). discriminate.
Qed.

(** X1. The record of a download that went through always has the same
    nine keys, in the order of the source; the four counters and the file
    name are strings, and the file name is the one the download chose. The
    record is not empty, so that [if cached:] takes it for a hit when it
    comes back from the cache; and it can be written as JSON and read back
    whenever what yt-dlp returned can. *)
Theorem record_shape info fn data :
  build_data info fn = Ok data ->
  (exists items, data = PDict items /\
     items.*1 = ["title"; "duration"; "uploader"; "like_count"; "comment_count";
                 "repost_count"; "view_count"; "thumbnail"; "file"]%string /\
     (forall k, k ∈ ["like_count"; "comment_count"; "repost_count";
                     "view_count"]%string ->
        exists s, assoc k items = Some (PStr s)) /\
     assoc "file" items = Some (PStr fn)) /\
  truthy data = true /\
  (serializable info = true -> serializable data = true).
Proof.
  intros Hb. split_and!.
  - apply build_data_inv in Hb as (d & thumbnail & title & _ & _ & _ & ->).
    eexists. split; [reflexivity|]. split_and!; [reflexivity| |reflexivity].
    intros k Hk. rewrite !elem_of_cons, elem_of_nil in Hk.
    destruct Hk as [->|[->|[->|[->|[]]]]]; by eexists.
  - by apply (build_data_truthy info fn).
  - by apply (build_data_serializable info fn).
Qed.

(** X2. The title of the record is the beginning of the title yt-dlp
    gave: at most 100 characters of it, and all of it when it has no more
    than 100. *)
Theorem title_is_truncated d fn data t :
  assoc "title" d = Some (PStr t) ->
  build_data (PDict d) fn = Ok (PDict data) ->
  exists shown rest,
    assoc "title" data = Some (PStr shown) /\
    t = (shown ++ rest)%string /\
    (String.length shown <= 100)%nat /\
    ((String.length t <= 100)%nat -> shown = t).
Proof.
  intros Ht (d' & thumbnail & title & [= <-] & _ & Hs & Hdata)%build_data_inv.
  rewrite Ht in Hs. injection Hs as <-. injection Hdata as ->.
  destruct (string_take_prefix 100 t) as [rest Hrest].
  exists (string_take 100 t), rest. split_and!.
  - reflexivity.
  - exact Hrest.
  - apply string_take_length.
  - apply string_take_all.
Qed.

(** X3. The thumbnail of the record. The value under [thumbnail] is taken
    when Python counts it as true. Otherwise the last entry of
    [thumbnails] decides: its [url], or [None] when it has none, whatever
    the entries before it hold; and an exception when that last entry is
    not a dictionary. With no [thumbnails] either, the value under
    [thumbnail] stays as it was, [None] when the key is missing. *)
Theorem thumbnail_choice d :
  let first := default PNone (assoc "thumbnail" d) in
  (truthy first = true -> pick_thumbnail (PDict d) = Ok first) /\
  (truthy first = false ->
   forall l t, assoc "thumbnails" d = Some (PList (l ++ [PDict t])) ->
     pick_thumbnail (PDict d) = Ok (default PNone (assoc "url" t))) /\
  (truthy first = false ->
   forall l x, assoc "thumbnails" d = Some (PList (l ++ [x])) ->
     (forall t, x <> PDict t) ->
     pick_thumbnail (PDict d) =
     Raise ("'" ++ type_name x ++ "' object has no attribute 'get'")%string) /\
  (truthy first = false ->
   truthy (default (PList []) (assoc "thumbnails" d)) = false ->
   pick_thumbnail (PDict d) = Ok first).
Proof.
  intros first.
  assert (Hlast : forall l x, truthy (PList (l ++ [x])) = true /\
                              py_last (PList (l ++ [x])) = Ok x).
  { intros l x. split; [by destruct l|]. unfold py_last. by rewrite last_snoc. }
  unfold pick_thumbnail, mbind, exc_bind, py_get. fold first.
  split_and!.
  - by intros ->.
  - intros -> l t ->. destruct (Hlast l (PDict t)) as [Ht Hl]. simpl default.
    by rewrite Ht, Hl.
  - intros -> l x -> Hx. destruct (Hlast l x) as [Ht Hl]. simpl default.
    rewrite Ht, Hl. simpl. destruct x; try done. by destruct (Hx l0).
  - by intros -> ->.
Qed.

(** X4. What the record holds when yt-dlp says nothing: for an info
    dictionary without the keys that [download_tiktok] reads, the title is
    ["Video TikTok"], the uploader ["TikTok User"], the duration 0, every
    counter ["0"] and the thumbnail [None]. *)
Theorem build_data_defaults d fn :
  (forall k, k ∈ ["thumbnail"; "thumbnails"; "title"; "duration"; "uploader";
                  "like_count"; "comment_count"; "repost_count";
                  "view_count"]%string ->
     assoc k d = None) ->
  build_data (PDict d) fn =
  Ok (PDict [
    ("title", PStr "Video TikTok");
    ("duration", PInt 0);
    ("uploader", PStr "TikTok User");
    ("like_count", PStr "0");
    ("comment_count", PStr "0");
    ("repost_count", PStr "0");
    ("view_count", PStr "0");
    ("thumbnail", PNone);
    ("file", PStr fn)]).
Proof.
  intros Hno. rewrite build_data_dict.
  unfold pick_thumbnail, record_of, py_get, mbind, exc_bind.
  rewrite !Hno by (rewrite !elem_of_cons; tauto).
  reflexivity.
Qed.

(** ** Downloads that fail, and the cache *)

Section MoreDownloadFacts.

Context `{Digest} `{Json}.

Lemma downloaded_failure c url w e :
  truthy (cached_value url w) = false -> fails_with c e ->
  downloaded c url w = failed e (extracted c url w).
Proof.
  intros Hc Hf. unfold downloaded. rewrite Hc.
  destruct Hf as [-> | (info & -> & ->)]; reflexivity.
Qed.

Lemma w_now_saved url data w : w_now (saved url data w) = w_now w.
Proof. unfold saved. destruct (w_write w); reflexivity. Qed.

(** The clock after [download_tiktok]: only yt-dlp takes time. *)
Lemma w_now_downloaded c url w :
  w_now (snd (downloaded c url w)) =
  if truthy (cached_value url w) then w_now w
  else (w_now w + x_elapsed (c_extract c))%Q.
Proof.
  unfold downloaded. destruct (truthy _); [done|].
  destruct (x_result _) as [info|e]; [|done].
  destruct (build_data _ _) as [data|e]; [|done]. simpl.
  destruct (cleanup_old_files_frame (extracted c url w)) as (_ & Hnow & _).
  by rewrite w_now_saved, Hnow.
Qed.

(** X5. A title that is there but is [None] (or a number, or a boolean)
    makes the download fail after the video was fetched: the default
    title only stands in for a missing key, the slice [[:100]] raises, and
    the caller gets the error record with the message of the [TypeError].
    The files yt-dlp wrote stay in the download directory, and nothing is
    cached. *)
Theorem bad_title_fails_download c url w d thumbnail v :
  truthy (cached_value url w) = false ->
  x_result (c_extract c) = Ok (PDict d) ->
  pick_thumbnail (PDict d) = Ok thumbnail ->
  assoc "title" d = Some v ->
  v = PNone \/ (exists b, v = PBool b) \/ (exists z, v = PInt z) ->
  let w' := snd (download_tiktok c url w) in
  fst (download_tiktok c url w) =
    Ok (error_record
          ("Error: '" ++ type_name v ++ "' object is not subscriptable")) /\
  w_downloads w' = w_downloads w ++ x_files (c_extract c) /\
  w_cache w' = w_cache w.
Proof.
  intros Hc Hx Hthumb Hv Hkind w'. subst w'.
  assert (Hb : build_data (PDict d) (c_uuid c ++ ".mp4") =
               Raise ("'" ++ type_name v ++ "' object is not subscriptable")).
  { rewrite build_data_dict, Hthumb, Hv. simpl.
    by destruct Hkind as [-> | [[b ->] | [z ->]]]. }
  rewrite download_tiktok_eq. simpl.
  rewrite (downloaded_failure c url w _ Hc) by (right; eauto). simpl.
  split_and!; [|done..]. do 2 f_equal.
  by destruct Hkind as [-> | [[b ->] | [z ->]]].
Qed.

(** X6. The message of a failure. The caller is shown ["Error: "] and
    the beginning of the message of the exception, 100 characters of it at
    most; the log keeps the message in full. *)
Theorem error_message_bounded c url w e :
  truthy (cached_value url w) = false -> fails_with c e ->
  exists shown rest,
    fst (download_tiktok c url w) = Ok (error_record ("Error: " ++ shown)) /\
    e = (shown ++ rest)%string /\
    (String.length shown <= 100)%nat /\
    last (w_log (snd (download_tiktok c url w))) =
      Some (ERROR, ("Download gagal: " ++ e)%string).
Proof.
  intros Hc Hf. rewrite download_tiktok_eq. simpl.
  rewrite (downloaded_failure c url w e Hc Hf). simpl.
  destruct (string_take_prefix 100 e) as [rest Hrest].
  exists (string_take 100 e), rest. split_and!.
  - reflexivity.
  - exact Hrest.
  - apply string_take_length.
  - by rewrite last_snoc.
Qed.

(** X7. A download that fails sweeps nothing: the clean-up pass stands
    after the point where the exception leaves the [try], so that the
    download directory afterwards is the directory before together with
    whatever yt-dlp wrote, old files included. *)
Theorem failed_download_runs_no_cleanup c url w e :
  truthy (cached_value url w) = false -> fails_with c e ->
  w_downloads (snd (download_tiktok c url w)) =
  w_downloads w ++ x_files (c_extract c).
Proof.
  intros Hc Hf. rewrite download_tiktok_eq. simpl.
  by rewrite (downloaded_failure c url w e Hc Hf).
Qed.


(** X9. [download_tiktok] touches no cache file but the one of its own
    URL, and it never deletes one: a file that is in the cache directory
    before the call is there after it. *)
Theorem download_touches_own_entry_only c url w name :
  let w' := snd (download_tiktok c url w) in
  (name <> cache_file url -> w_cache w' !! name = w_cache w !! name) /\
  (is_Some (w_cache w !! name) -> is_Some (w_cache w' !! name)).
Proof.
  intros w'. subst w'. rewrite download_tiktok_eq. simpl.
  unfold downloaded. destruct (truthy _); [done|].
  destruct (x_result _) as [info|e]; [|done].
  destruct (build_data _ _) as [data|e]; [|done]. simpl.
  destruct (cleanup_old_files_frame (extracted c url w)) as (Hcache & _ & _).
  simpl in Hcache.
  unfold saved, put_cache. destruct (w_write _); simpl; rewrite ?Hcache.
  - split.
    + intros Hne. by rewrite lookup_insert_ne.
    + intros Hin. rewrite lookup_insert_is_Some.
      destruct (decide (cache_file url = name)); auto.
  - done.
  - split.
    + intros Hne. by rewrite lookup_insert_ne.
    + intros Hin. rewrite lookup_insert_is_Some.
      destruct (decide (cache_file url = name)); auto.
Qed.

(** X10. The second request for a URL is served from the cache. After a
    download that went through and whose record was written, a request
    for the same URL made less than 1800 seconds later returns the same
    record, whatever yt-dlp would do this time, and leaves clock, cache
    and download directory as they are. *)
Theorem second_request_from_cache c c2 url w w2 info data :
  truthy (cached_value url w) = false ->
  x_result (c_extract c) = Ok info ->
  build_data info (c_uuid c ++ ".mp4") = Ok data ->
  serializable data = true ->
  w_write w = WriteOk ->
  from_option f_readable true (w_cache w !! cache_file url) = true ->
  let w1 := snd (download_tiktok c url w) in
  w_cache w2 !! cache_file url = w_cache w1 !! cache_file url ->
  (w_now w2 - w_now w1 < 1800)%Q ->
  let w3 := snd (download_tiktok c2 url w2) in
  fst (download_tiktok c url w) = Ok data /\
  fst (download_tiktok c2 url w2) = Ok data /\
  w_downloads w3 = w_downloads w2 /\
  w_cache w3 = w_cache w2 /\
  w_now w3 = w_now w2.
Proof.
  intros Hc Hx Hb Hser Hw Hrd w1 Hsame Hfresh w3. subst w1 w3.
  rewrite !download_tiktok_eq in *. simpl in *.
  rewrite (downloaded_success c url w info data) in * by done. simpl in *.
  destruct (cleanup_old_files_frame (extracted c url w)) as (Hcache & Hnow & Hwr).
  simpl in Hcache, Hnow, Hwr.
  assert (Hcv : cached_value url w2 = data).
  { unfold cached_value. rewrite Hsame.
    rewrite saved_lookup by (by rewrite Hwr). simpl.
    rewrite Hcache, Hrd.
    rewrite w_now_saved in Hfresh. apply Qlt_bool_true in Hfresh.
    rewrite Hfresh. simpl. by rewrite json_loads_dumps. }
  unfold downloaded. rewrite Hcv, (build_data_truthy _ _ _ Hb).
  done.
Qed.

(** X22. The cache only ever holds records of downloads that went
    through. When every file of the cache holds the JSON text of such a
    record, and no write is cut short, this is still so after
    [download_tiktok]; and what a hit returns is then such a record, never
    an error record. *)
Theorem cache_holds_only_records c url w :
  cache_clean w ->
  (forall n e, w_write w <> WriteFails n e) ->
  (forall info, x_result (c_extract c) = Ok info -> serializable info = true) ->
  cache_clean (snd (download_tiktok c url w)) /\
  (truthy (cached_value url w) = true ->
   exists v, fst (download_tiktok c url w) = Ok v /\
             success_record v /\ forall msg, v <> error_record msg).
Proof.
  intros Hinv Hwr Hser. rewrite download_tiktok_eq. simpl. split.
  - unfold downloaded. destruct (truthy _); [done|].
    destruct (x_result _) as [info|e] eqn:Hx; [|done].
    destruct (build_data _ _) as [data|e] eqn:Hb; [|done]. simpl.
    destruct (cleanup_old_files_frame (extracted c url w)) as (Hcache & _ & Hw).
    simpl in Hcache, Hw.
    intros name f. unfold saved, put_cache. rewrite Hw.
    destruct (w_write w) as [|e|n e] eqn:Hfault; simpl; rewrite ?Hcache.
    + rewrite lookup_insert_Some. intros [[_ <-]|[_ Hold]]; [|eauto].
      exists data. split_and!; [by exists info, (c_uuid c ++ ".mp4")%string| |done].
      apply (build_data_serializable info _ data Hb). auto.
    + apply Hinv.
    + by destruct (Hwr n e).
  - intros Hhit. exists (cached_value url w).
    assert (Hrec : success_record (cached_value url w)).
    { unfold cached_value in *.
      destruct (w_cache w !! cache_file url) as [f|] eqn:Hf; [|done].
      destruct (_ && _); [|done].
      destruct (Hinv _ _ Hf) as (v & Hv & Hs & ->).
      by rewrite json_loads_dumps. }
    unfold downloaded. rewrite Hhit. simpl. split_and!; [done|done|].
    intros msg. by apply success_record_no_error.
Qed.

End MoreDownloadFacts.

(** ** White space around the URL *)

Lemma lstrip_head s :
  Str.lstrip s = ""%string \/
  exists c t, Str.lstrip s = String c t /\ Str.is_space c = false.
Proof.
  induction s as [|c s IH]; simpl; [by left|].
  destruct (Str.is_space c) eqn:Hc; [done|]. right. by exists c, s.
Qed.

Lemma rstrip_keeps_head c t :
  Str.is_space c = false -> exists t', Str.rstrip (String c t) = String c t'.
Proof.
  intros Hc. simpl. rewrite Hc. destruct (Str.rstrip t); by eexists.
Qed.

Lemma rstrip_rstrip s : Str.rstrip (Str.rstrip s) = Str.rstrip s.
Proof.
  induction s as [|c s IH]; [done|]. simpl.
  destruct (Str.rstrip s) as [|c' t] eqn:Hr.
  - destruct (Str.is_space c) eqn:Hc; [done|]. simpl. by rewrite Hc.
  - change (Str.rstrip (String c (String c' t))) with
      (match Str.rstrip (String c' t) with
       | EmptyString => if Str.is_space c then EmptyString else String c EmptyString
       | u => String c u
       end).
    by rewrite IH.
Qed.

Lemma strip_strip s : Str.strip (Str.strip s) = Str.strip s.
Proof.
  unfold Str.strip.
  destruct (lstrip_head s) as [-> | (c & t & -> & Hc)]; [done|].
  destruct (rstrip_keeps_head c t Hc) as [t' Ht'].
  rewrite Ht'. simpl Str.lstrip. rewrite Hc, <- Ht'. apply rstrip_rstrip.
Qed.

Section MoreHandlerFacts.

Context `{Digest} `{Json}.

(** X11. White space around the URL in the form changes nothing: the
    handler answers, and leaves the world, as for the stripped URL; so the
    URL with and without it share one cache entry. *)
Theorem index_ignores_white_space c raw w :
  index c (POST (Some raw)) w = index c (POST (Some (Str.strip raw))) w.
Proof.
  unfold index.
  change (default ""%string (Some (Str.strip raw))) with (Str.strip raw).
  change (default ""%string (Some raw)) with raw.
  by rewrite strip_strip.
Qed.

(** X12. A form value in which [tiktok.com] occurs, anywhere, goes to
    [download_tiktok], stripped; and when the URL is cached, or yt-dlp
    takes less than the 25 seconds of the [join], the handler hands the
    template what [download_tiktok] returned. *)
Theorem index_returns_download c raw w :
  has_substring "tiktok.com" (Str.strip raw) ->
  truthy (cached_value (Str.strip raw) w) = true \/
    (x_elapsed (c_extract c) < 25)%Q ->
  exists r w',
    download_tiktok c (Str.strip raw) w = (Ok r, w') /\
    index c (POST (Some raw)) w = (Ok (Some r), w').
Proof.
  intros Hsub%contains_spec Htime.
  exists (fst (downloaded c (Str.strip raw) w)), (snd (downloaded c (Str.strip raw) w)).
  split; [apply download_tiktok_eq|].
  unfold index. change (default ""%string (Some raw)) with raw. rewrite Hsub.
  assert (Hne : truthy (PStr (Str.strip raw)) = true).
  { destruct (Str.strip raw); [discriminate|done]. }
  rewrite Hne. cbn [negb orb]. cbv beta iota.
  unfold download_in_thread, try_except. rewrite download_tiktok_eq.
  rewrite w_now_downloaded.
  assert (Hin : Qlt_bool
            ((if truthy (cached_value (Str.strip raw) w) then w_now w
              else w_now w + x_elapsed (c_extract c)) - w_now w) 25 = true).
  { apply Qlt_bool_true.
    destruct (truthy (cached_value (Str.strip raw) w)); [lra|].
    destruct Htime as [|Hlt]; [done|]. lra. }
  by rewrite Hin.
Qed.

End MoreHandlerFacts.

(** ** The clean-up pass, file by file *)

Lemma dir_lookup_is_Some n (d : list (string * entry)) :
  is_Some (dir_lookup n d) <-> n ∈ d.*1.
Proof.
  induction d as [|[n' e] d IH]; simpl.
  - rewrite elem_of_nil. split; [by intros [? ?]|done].
  - rewrite elem_of_cons. destruct (String.eqb_spec n n') as [->|Hne].
    + split; [by left|by eexists].
    + rewrite IH. split; [by right|]. by intros [?|?].
Qed.

(** A name stands for one file. *)
Lemma names_unique (d : list (string * entry)) n e1 e2 :
  NoDup (d.*1) -> (n, e1) ∈ d -> (n, e2) ∈ d -> e1 = e2.
Proof.
  induction d as [|[n' e] d IH]; simpl; [by rewrite elem_of_nil|].
  rewrite NoDup_cons, !elem_of_cons. intros [Hn' Hd] [H1|H1] [H2|H2].
  - congruence.
  - injection H1 as -> ->. destruct Hn'.
    by apply (list_elem_of_fmap_2 fst d (n', e2)).
  - injection H2 as -> ->. destruct Hn'.
    by apply (list_elem_of_fmap_2 fst d (n', e1)).
  - auto.
Qed.

Lemma swept_sublist now d : swept now d `sublist_of` d.
Proof.
  induction d as [|[n e] d IH]; simpl; [constructor|].
  destruct (is_old now e); [destruct (e_removable e)|].
  - by constructor.
  - reflexivity.
  - by constructor.
Qed.

Lemma swept_names now d n : n ∈ (swept now d).*1 -> n ∈ d.*1.
Proof.
  intros ([n' e] & -> & Hin)%list_elem_of_fmap_1.
  apply (list_elem_of_fmap_2 fst d (n', e)). by apply (swept_subset now).
Qed.

Lemma swept_NoDup now d : NoDup (d.*1) -> NoDup ((swept now d).*1).
Proof.
  induction d as [|[n e] d IH]; simpl; [done|].
  rewrite NoDup_cons. intros [Hn Hd].
  destruct (is_old now e); [destruct (e_removable e)|]; simpl.
  - auto.
  - by rewrite NoDup_cons.
  - rewrite NoDup_cons. split; [|auto]. intros Hin. by apply Hn, (swept_names now).
Qed.

(** What a pass takes out is old and could be removed. *)
Lemma swept_removed now d n e :
  (n, e) ∈ d -> (n, e) ∉ swept now d ->
  is_old now e = true /\ e_remove e = None.
Proof.
  induction d as [|[n' e'] d IH]; simpl; [by rewrite elem_of_nil|].
  rewrite elem_of_cons. intros Hin Hout.
  destruct (is_old now e') eqn:Hold; [destruct (e_removable e') eqn:Hrm|].
  - destruct Hin as [[= -> ->]|Hin]; [|auto].
    split; [done|]. unfold e_removable in Hrm. by destruct (e_remove e').
  - destruct Hout. rewrite elem_of_cons. done.
  - rewrite elem_of_cons in Hout. destruct Hin as [?|Hin]; [tauto|].
    apply IH; [done|tauto].
Qed.

Lemma swept_swept now d : swept now (swept now d) = swept now d.
Proof.
  induction d as [|[n e] d IH]; simpl; [done|].
  destruct (is_old now e) eqn:Hold; [destruct (e_removable e) eqn:Hrm|]; simpl.
  - done.
  - by rewrite Hold, Hrm.
  - by rewrite Hold, IH.
Qed.

Lemma filter_partition {A} (P : A -> bool) (l : list A) :
  List.filter (fun x => negb (P x)) l ++ List.filter P l ≡ₚ l.
Proof.
  induction l as [|x l IH]; simpl; [done|].
  destruct (P x); simpl.
  - rewrite <- Permutation_middle. by constructor.
  - by constructor.
Qed.

(** X13. A pass only takes files out, and only old ones: whether a
    deletion fails or not, the listing after it is the listing before with
    some files left out, in the same order, and every file left out was
    written more than 3600 seconds before the pass and could be
    removed. *)
Theorem cleanup_only_removes_old w :
  NoDup ((w_downloads w).*1) ->
  let after := w_downloads (snd (cleanup_old_files w)) in
  after `sublist_of` w_downloads w /\
  forall n e, (n, e) ∈ w_downloads w -> (n, e) ∉ after ->
    (e_mtime e < w_now w - 3600)%Q /\ e_remove e = None.
Proof.
  intros Hnd after. subst after.
  rewrite cleanup_old_files_cleaned by done. simpl.
  rewrite w_downloads_cleaned. split; [apply swept_sublist|].
  intros n e Hin Hout. rewrite <- is_old_true.
  by apply (swept_removed (w_now w) (w_downloads w) n).
Qed.

(** X14. A second pass at the same time finds nothing to do: it leaves
    the download directory as the first pass left it, also when the first
    pass stopped at a file it could not remove. *)
Theorem cleanup_twice w :
  NoDup ((w_downloads w).*1) ->
  let w1 := snd (cleanup_old_files w) in
  w_downloads (snd (cleanup_old_files w1)) = w_downloads w1.
Proof.
  intros Hnd w1. subst w1.
  rewrite (cleanup_old_files_cleaned w) by done. simpl.
  rewrite cleanup_old_files_cleaned
    by (rewrite w_downloads_cleaned; by apply swept_NoDup).
  simpl. rewrite !w_downloads_cleaned, w_now_cleaned. apply swept_swept.
Qed.

(** X15. When no deletion fails, the pass logs one line for each file it
    removes, in the order of the listing, and the files that stay together
    with the files logged are the files that were there. *)
Theorem cleanup_logs_each_removal w :
  NoDup ((w_downloads w).*1) ->
  removable_olds (w_now w) (w_downloads w) ->
  let w' := snd (cleanup_old_files w) in
  let gone := List.filter (fun p => is_old (w_now w) p.2) (w_downloads w) in
  w_log w' =
    w_log w ++ ((fun p => (INFO, ("File dihapus: " ++ p.1)%string)) <$> gone) /\
  w_downloads w' ++ gone ≡ₚ w_downloads w.
Proof.
  intros Hnd Hrm w' gone. subst w' gone.
  rewrite cleanup_old_files_cleaned by done. simpl.
  destruct (swept_filter _ _ Hrm) as (Hs & Hres & Hlog).
  unfold cleaned. rewrite Hres, Hs, Hlog. simpl. split; [done|].
  apply (filter_partition (fun p => is_old (w_now w) p.2)).
Qed.

(** ** The file endpoint *)

Section FileFacts.

Context `{Digest} `{Json} `{Flask}.

Lemma download_file_eq filename w :
  download_file filename w =
  (Ok (if bool_decide (filename = "."%string \/ filename = ".."%string) ||
          bool_decide (filename ∈ (w_downloads w).*1)
       then match send_file filename true
                    ("tiktok_video_" ++ filename ++ ".mp4") w with
            | Ok r => Sent r
            | Raise e => Text ("Error: " ++ e) 500
            end
       else Text "File tidak ditemukan" 404), w).
Proof.
  unfold download_file, download_exists, flask_send_file, try_except,
    mbind, M_bind, mret, M_ret.
  rewrite (bool_decide_ext _ _ (dir_lookup_is_Some filename (w_downloads w))).
  destruct (_ || _); [|done]. by destruct (send_file _ _ _ w).
Qed.

(** X16. The file endpoint raises nothing and changes nothing, and it
    answers 404 with ["File tidak ditemukan"] exactly for the names that
    are not in the download directory ([.] and [..] are names of
    directories and count as there). *)
Theorem download_file_not_found filename w :
  (exists r, download_file filename w = (Ok r, w)) /\
  (download_file filename w = (Ok (Text "File tidak ditemukan" 404), w) <->
   (filename ∉ (w_downloads w).*1) /\
   (filename <> "."%string) /\ (filename <> ".."%string)).
Proof.
  rewrite download_file_eq. split; [by eexists|].
  destruct (bool_decide (filename = "."%string \/ filename = ".."%string)) eqn:Hdot;
    destruct (bool_decide (filename ∈ (w_downloads w).*1)) eqn:Hin; simpl;
    try apply bool_decide_eq_true in Hdot; try apply bool_decide_eq_false in Hdot;
    try apply bool_decide_eq_true in Hin; try apply bool_decide_eq_false in Hin.
  - split; [|tauto]. by destruct (send_file _ _ _ w).
  - split; [|tauto]. by destruct (send_file _ _ _ w).
  - split; [|tauto]. by destruct (send_file _ _ _ w).
  - split; [|done]. intros _. tauto.
Qed.

Lemma mp4_not_dot s :
  ((s ++ ".mp4")%string <> "."%string) /\ ((s ++ ".mp4")%string <> ".."%string).
Proof.
  split; intros Heq; apply (f_equal String.length) in Heq;
    rewrite JsonFacts.length_app in Heq; simpl in Heq; lia.
Qed.

(** The download directory after a download that went through. *)
Lemma w_downloads_after_success c url w info data :
  truthy (cached_value url w) = false ->
  x_result (c_extract c) = Ok info ->
  build_data info (c_uuid c ++ ".mp4") = Ok data ->
  NoDup ((w_downloads w ++ x_files (c_extract c)).*1) ->
  w_downloads (snd (download_tiktok c url w)) =
  swept (w_now w + x_elapsed (c_extract c)) (w_downloads w ++ x_files (c_extract c)).
Proof.
  intros Hc Hx Hb Hnd. rewrite download_tiktok_eq. simpl.
  rewrite (downloaded_success c url w info data) by done. simpl.
  rewrite w_downloads_saved, cleanup_old_files_cleaned by done.
  simpl. by rewrite w_downloads_cleaned.
Qed.

(** X17. The file a download names can be fetched. When yt-dlp wrote the
    file under the name the download chose, and the file is not more than
    3600 seconds old when the download ends, the [file] of the record is
    a name the endpoint finds, and the endpoint sends it as an attachment
    under the name [tiktok_video_] followed by the file name and a second
    [.mp4]. *)
Theorem downloaded_file_is_served c url w info data e r :
  truthy (cached_value url w) = false ->
  x_result (c_extract c) = Ok info ->
  build_data info (c_uuid c ++ ".mp4") = Ok (PDict data) ->
  NoDup ((w_downloads w ++ x_files (c_extract c)).*1) ->
  (c_uuid c ++ ".mp4", e)%string ∈ x_files (c_extract c) ->
  (w_now w + x_elapsed (c_extract c) - 3600 <= e_mtime e)%Q ->
  let w' := snd (download_tiktok c url w) in
  send_file (c_uuid c ++ ".mp4") true
    ("tiktok_video_" ++ c_uuid c ++ ".mp4.mp4") w' = Ok r ->
  exists filename,
    assoc "file" data = Some (PStr filename) /\
    download_file filename w' = (Ok (Sent r), w').
Proof.
  intros Hc Hx Hb Hnd Hin Hyoung%is_old_false w' Hsend.
  exists (c_uuid c ++ ".mp4")%string. split.
  - apply build_data_inv in Hb as (d & th & ti & _ & _ & _ & [= ->]). reflexivity.
  - rewrite download_file_eq.
    assert (Hthere : (c_uuid c ++ ".mp4")%string ∈ (w_downloads w').*1).
    { unfold w'. rewrite (w_downloads_after_success c url w info (PDict data)) by done.
      apply (list_elem_of_fmap_2 fst _ (_, e)).
      apply swept_keeps_young; [|done]. rewrite elem_of_app. by right. }
    rewrite (bool_decide_eq_true_2 _ Hthere), orb_true_r.
    rewrite JsonFacts.app_assoc.
    change (".mp4" ++ ".mp4")%string with ".mp4.mp4"%string.
    by rewrite Hsend.
Qed.

(** X18. A file that carries an old modification time is reaped by the
    download that fetched it. The pass runs right after yt-dlp and looks
    at modification times only: when the new file is stamped more than
    3600 seconds back, and no deletion fails, the download returns its
    record as if all were well, and the file the record names is gone:
    the endpoint answers 404 for it. *)
Theorem stale_file_reaped_at_once c url w info data e :
  truthy (cached_value url w) = false ->
  x_result (c_extract c) = Ok info ->
  build_data info (c_uuid c ++ ".mp4") = Ok (PDict data) ->
  NoDup ((w_downloads w ++ x_files (c_extract c)).*1) ->
  removable_olds (w_now w + x_elapsed (c_extract c))
    (w_downloads w ++ x_files (c_extract c)) ->
  (c_uuid c ++ ".mp4", e)%string ∈ x_files (c_extract c) ->
  (e_mtime e < w_now w + x_elapsed (c_extract c) - 3600)%Q ->
  let w' := snd (download_tiktok c url w) in
  fst (download_tiktok c url w) = Ok (PDict data) /\
  exists filename,
    assoc "file" data = Some (PStr filename) /\
    download_file filename w' = (Ok (Text "File tidak ditemukan" 404), w').
Proof.
  intros Hc Hx Hb Hnd Hrm Hin Hold%is_old_true w'. split.
  - rewrite download_tiktok_eq. simpl.
    by rewrite (downloaded_success c url w info (PDict data)).
  - exists (c_uuid c ++ ".mp4")%string. split.
    + apply build_data_inv in Hb as (d & th & ti & _ & _ & _ & [= ->]). reflexivity.
    + rewrite download_file_eq.
      destruct (mp4_not_dot (c_uuid c)) as [Hdot1 Hdot2].
      rewrite bool_decide_eq_false_2 by tauto.
      rewrite bool_decide_eq_false_2; [done|].
      unfold w'. rewrite (w_downloads_after_success c url w info (PDict data)) by done.
      destruct (swept_filter _ _ Hrm) as (-> & _ & _).
      intros ([n e'] & Hn & Hin')%list_elem_of_fmap_1. simpl in Hn. subst n.
      apply list_elem_of_In, filter_In in Hin' as [Hin' Hyoung].
      apply list_elem_of_In in Hin'. simpl in Hyoung.
      assert (e' = e) as ->.
      { apply (names_unique _ (c_uuid c ++ ".mp4")%string _ _ Hnd Hin').
        rewrite elem_of_app. by right. }
      by rewrite Hold in Hyoung.
Qed.

End FileFacts.

(** ** Counters at the edges *)

(** X19. Just below a million the counter reads ["1000.0K"]: from 999950
    on, the quotient by 1000 rounds up to 1000.0, and the unit stays [K],
    as the test on the counter comes before the rounding. *)
Theorem format_num_rounds_up_to_1000K n :
  999950 <= n < 1000000 -> format_num (PInt n) = "1000.0K"%string.
Proof.
  intros Hn. destruct (Z.eq_dec n 999950) as [->|Hne]; [by vm_compute|].
  assert (Hbig : 1000000 < 2 ^ 53) by done.
  assert (Hbig' : 2 ^ 53 < 2 ^ 1023) by (apply Z.pow_lt_mono_r; lia).
  destruct (FloatFacts.true_div_finite n 1000) as [x Hx]; [lia..|].
  destruct (FloatFacts.tenths_nearest n 1000 x) as [Hr Hr0];
    [by exists 50|lia|lia|done|].
  rewrite (format_num_thousands n x) by (done || lia).
  assert (Float.tenths x = 10000) as Ht by lia.
  unfold Float.format_1f. rewrite Ht. by vm_compute.
Qed.

Lemma digits_cons c d acc b s :
  Str.digit_value c = Some d ->
  Str.digits acc b (String c s) = Str.digits (10 * acc + d) true s.
Proof. simpl. by intros ->. Qed.

Ltac digits_step :=
  match goal with
  | |- context [Str.digits ?acc ?b (String ?c ?s)] =>
      let d := eval vm_compute in (Z.of_nat (nat_of_ascii c) - 48) in
      rewrite (digits_cons c d acc b s) by reflexivity
  end.

Lemma digits_uint_acc d acc :
  Str.digits (Z.pos acc) true (NilEmpty.string_of_uint d) =
  Some (Z.pos (Pos.of_uint_acc d acc)).
Proof.
  revert acc. induction d as [|d IH|d IH|d IH|d IH|d IH|d IH|d IH|d IH|d IH|d IH];
    intros acc; cbn [NilEmpty.string_of_uint Pos.of_uint_acc]; [done|..];
    digits_step; rewrite <- IH; f_equal; lia.
Qed.

Lemma digits_uint d :
  Str.digits 0 true (NilEmpty.string_of_uint d) = Some (Z.of_N (Pos.of_uint d)).
Proof.
  induction d as [|d IH|d IH|d IH|d IH|d IH|d IH|d IH|d IH|d IH|d IH];
    cbn [NilEmpty.string_of_uint Pos.of_uint]; [done|..]; digits_step;
    [exact IH|..]; cbn [Z.of_N]; rewrite <- digits_uint_acc; f_equal.
Qed.

Lemma digits_uint_start d :
  d <> Decimal.Nil ->
  Str.digits 0 false (NilEmpty.string_of_uint d) =
  Str.digits 0 true (NilEmpty.string_of_uint d).
Proof.
  destruct d; [done|..]; intros _; cbn [NilEmpty.string_of_uint];
    by do 2 digits_step.
Qed.

Fixpoint no_space (s : string) : bool :=
  match s with
  | EmptyString => true
  | String c s' => negb (Str.is_space c) && no_space s'
  end.

Lemma strip_no_space s : no_space s = true -> Str.strip s = s.
Proof.
  intros Hs. unfold Str.strip.
  assert (Hl : Str.lstrip s = s).
  { destruct s as [|c s]; [done|]. simpl in *.
    by destruct (Str.is_space c). }
  rewrite Hl. clear Hl. induction s as [|c s IH]; [done|].
  simpl in *. apply andb_prop in Hs as [Hc Hs]. rewrite (IH Hs).
  destruct s; [|done]. by destruct (Str.is_space c).
Qed.

Lemma no_space_uint d : no_space (NilEmpty.string_of_uint d) = true.
Proof. induction d; cbn [NilEmpty.string_of_uint no_space]; by rewrite ?IHd. Qed.

(** [int(str(n))] is [n]. *)
Lemma to_Z_of_Z n : Str.to_Z (Str.of_Z n) = Some n.
Proof.
  destruct n as [|p|p]; [by vm_compute|..]; unfold Str.of_Z, Str.to_Z; simpl Z.to_int.
  - pose proof (DecimalPos.Unsigned.to_uint_nonnil p) as Hnn.
    pose proof (DecimalPos.Unsigned.of_to p) as Hp.
    pose proof (digits_uint (Pos.to_uint p)) as Hd.
    pose proof (digits_uint_start _ Hnn) as Hs.
    pose proof (no_space_uint (Pos.to_uint p)) as Hns.
    unfold NilZero.string_of_int, NilZero.string_of_uint.
    destruct (Pos.to_uint p) eqn:Hu; [done|..];
      rewrite strip_no_space by exact Hns;
      cbn [NilEmpty.string_of_uint] in *; rewrite Hs, Hd, Hp; reflexivity.
  - pose proof (DecimalPos.Unsigned.to_uint_nonnil p) as Hnn.
    pose proof (DecimalPos.Unsigned.of_to p) as Hp.
    pose proof (digits_uint (Pos.to_uint p)) as Hd.
    pose proof (digits_uint_start _ Hnn) as Hs.
    pose proof (no_space_uint (Pos.to_uint p)) as Hns.
    unfold NilZero.string_of_int, NilZero.string_of_uint.
    destruct (Pos.to_uint p) eqn:Hu; [done|..];
      rewrite strip_no_space by (cbn [no_space]; by rewrite Hns);
      rewrite Hs, Hd, Hp; reflexivity.
Qed.

(** X20. A counter that comes as decimal text is shown as the number it
    writes: [int] reads back what [str] prints, so [format_num] gives for
    the text of an integer what it gives for the integer. *)
Theorem format_num_reads_decimal_text n :
  format_num (PStr (Str.of_Z n)) = format_num (PInt n).
Proof.
  unfold format_num, format_num_body, py_int. by rewrite to_Z_of_Z.
Qed.


(** ** The name of a cache file *)

Lemma hex_digit_is_hex n : 0 <= n < 16 -> is_hex (Md5.hex_digit n) = true.
Proof.
  intros Hn.
  assert (Hall : forallb (fun k => is_hex (Md5.hex_digit (Z.of_nat k)))
                   (seq 0 16) = true) by reflexivity.
  rewrite forallb_forall in Hall.
  rewrite <- (Z2Nat.id n) by lia. apply Hall, in_seq. lia.
Qed.

Lemma hex_shape bs :
  Forall (fun b => 0 <= b < 256) bs ->
  all_hex (Md5.hex bs) = true /\
  String.length (Md5.hex bs) = (2 * List.length bs)%nat.
Proof.
  induction 1 as [|b bs Hb Hbs [IH1 IH2]]; [done|]. simpl.
  assert (Hhi : 0 <= b / 16 < 16).
  { split; [apply Z.div_pos; lia|]. apply Z.div_lt_upper_bound; lia. }
  assert (Hlo : 0 <= b mod 16 < 16) by (apply Z.mod_pos_bound; lia).
  rewrite (hex_digit_is_hex _ Hhi), (hex_digit_is_hex _ Hlo), IH1, IH2.
  split; [done|lia].
Qed.

Lemma le_bytes_range count x : Forall (fun b => 0 <= b < 256) (Md5.le_bytes count x).
Proof.
  unfold Md5.le_bytes. apply Forall_forall. intros b Hb.
  apply list_elem_of_In, in_map_iff in Hb as (i & <- & _).
  apply Z.mod_pos_bound. lia.
Qed.

Lemma le_bytes_length count x : List.length (Md5.le_bytes count x) = count.
Proof. unfold Md5.le_bytes. by rewrite length_map, length_seq. Qed.

(** X21. No character of the URL reaches the file system: with the MD5
    digest, the name of the cache file of any URL is 32 hexadecimal digits
    followed by [.json]. *)
Theorem cache_file_name_is_hex url :
  exists digest,
    @cache_file md5_digest url = (digest ++ ".json")%string /\
    String.length digest = 32%nat /\
    all_hex digest = true.
Proof.
  exists (Md5.hexdigest url). split; [reflexivity|].
  unfold Md5.hexdigest.
  destruct (fold_left Md5.block _ _) as [[[a b] c] d].
  destruct (hex_shape (Md5.le_bytes 4 a ++ Md5.le_bytes 4 b ++
                       Md5.le_bytes 4 c ++ Md5.le_bytes 4 d)) as [Hhex Hlen].
  { rewrite !Forall_app. split_and!; apply le_bytes_range. }
  split; [|done]. rewrite Hlen, !length_app, !le_bytes_length. reflexivity.
Qed.


(** * More runs *)

Module Sample.

(** A title of 125 characters. *)
Definition long_title : string :=
  "Tari Saman dari Gayo Lues, Aceh: seratus penari duduk berbanjar dan menepuk dada mengikuti syair sang syekh di malam festival".

Definition titled : list (string * pyval) :=
  [("title", PStr long_title); ("like_count", PStr "1500")].

(** What yt-dlp returns for a video without a title. *)
Definition untitled : list (string * pyval) :=
  [("title", PNone); ("uploader", PStr "user")].

Definition nameless : call :=
  Call "u" (Extraction 3 [("u.mp4", Run.fresh)] (Ok (PDict untitled))).

(** A failure with a message of 129 characters. *)
Definition forbidden : string :=
  "ERROR: [TikTok] 7301234567890123456: Unable to download webpage: HTTP Error 403: Forbidden (caused by <HTTPError 403: Forbidden>)".

Definition refused : call := Call "v" (Extraction 2 [] (Raise forbidden)).

(** A download whose file carries a modification time of long ago. *)
Definition stamped : call :=
  Call "u" (Extraction 3 [("u.mp4", Run.old)] (Ok Run.info)).

(** The world a download that worked leaves, 500 seconds later. *)
Definition later : world :=
  set_now 10503 (snd (download_tiktok Run.works Run.url Run.empty)).

(** The cache holds the entry of another URL. *)
Definition other : world :=
  World 10000 {[ "0.json"%string := File 1 "{}" true ]} [] WriteOk [].

(** A [send_file] that serves the files listed and nothing else. *)
#[global] Instance serves_listed : Flask := {|
  response := string * string;
  send_file filename _ download_name w :=
    match dir_lookup filename (w_downloads w) with
    | Some _ => Ok (filename, download_name)
    | None => Raise "[Errno 21] Is a directory"
    end
|}.

End Sample.

(** X1, on a run. *)
Lemma record_shape_run :
  (exists items, Run.data = PDict items /\
     items.*1 = ["title"; "duration"; "uploader"; "like_count"; "comment_count";
                 "repost_count"; "view_count"; "thumbnail"; "file"]%string /\
     (forall k, k ∈ ["like_count"; "comment_count"; "repost_count";
                     "view_count"]%string ->
        exists s, assoc k items = Some (PStr s)) /\
     assoc "file" items = Some (PStr "u.mp4")) /\
  truthy Run.data = true /\
  serializable Run.data = true.
Proof.
  destruct (record_shape Run.info "u.mp4" Run.data) as (Hitems & Htrue & Hser).
  - by vm_compute.
  - split_and!; [exact Hitems|exact Htrue|]. apply Hser. by vm_compute.
Defined.

(** X2, on a run: of a title of 125 characters the record keeps 100. *)
Lemma title_is_truncated_run :
  exists shown rest,
    assoc "title" [
      ("title", PStr "Tari Saman dari Gayo Lues, Aceh: seratus penari duduk berbanjar dan menepuk dada mengikuti syair san");
      ("duration", PInt 0);
      ("uploader", PStr "TikTok User");
      ("like_count", PStr "1.5K");
      ("comment_count", PStr "0");
      ("repost_count", PStr "0");
      ("view_count", PStr "0");
      ("thumbnail", PNone);
      ("file", PStr "u.mp4")] = Some (PStr shown) /\
    Sample.long_title = (shown ++ rest)%string /\
    (String.length shown <= 100)%nat /\
    ((String.length Sample.long_title <= 100)%nat -> shown = Sample.long_title).
Proof.
  apply (title_is_truncated Sample.titled "u.mp4").
  - reflexivity.
  - by vm_compute.
Defined.

(** X3, on four runs: the last of the [thumbnails], a [thumbnail] that
    counts, a last entry that is a string, and an empty [thumbnail]. *)
Lemma thumbnail_choice_run :
  pick_thumbnail Run.info = Ok (PStr "https://p16.tiktokcdn.com/a.jpg") /\
  pick_thumbnail (PDict [("thumbnail", PStr "https://p16.tiktokcdn.com/b.jpg")]) =
    Ok (PStr "https://p16.tiktokcdn.com/b.jpg") /\
  pick_thumbnail (PDict [("thumbnails", PList [PStr "a.jpg"])]) =
    Raise "'str' object has no attribute 'get'" /\
  pick_thumbnail (PDict [("thumbnail", PStr "")]) = Ok (PStr "").
Proof.
  split_and!.
  - apply (proj1 (proj2 (thumbnail_choice [
               ("title", PStr "Tari");
               ("duration", PInt 15);
               ("uploader", PStr "user");
               ("like_count", PInt 1500);
               ("view_count", PInt 2300000);
               ("thumbnails",
                PList [PDict [("url", PStr "https://p16.tiktokcdn.com/a.jpg")]])]))
             eq_refl [] [("url", PStr "https://p16.tiktokcdn.com/a.jpg")]).
    reflexivity.
  - apply (proj1 (thumbnail_choice
             [("thumbnail", PStr "https://p16.tiktokcdn.com/b.jpg")])).
    reflexivity.
  - apply (proj1 (proj2 (proj2 (thumbnail_choice
             [("thumbnails", PList [PStr "a.jpg"])]))) eq_refl [] (PStr "a.jpg")).
    + reflexivity.
    + discriminate.
  - apply (proj2 (proj2 (proj2 (thumbnail_choice [("thumbnail", PStr "")])))).
    + reflexivity.
    + reflexivity.
Defined.

(** X4, on a run: yt-dlp returns the identifier of the video and nothing
    else. *)
Lemma build_data_defaults_run :
  build_data (PDict [("id", PStr "7301234567890123456")]) "u.mp4" =
  Ok (PDict [
    ("title", PStr "Video TikTok");
    ("duration", PInt 0);
    ("uploader", PStr "TikTok User");
    ("like_count", PStr "0");
    ("comment_count", PStr "0");
    ("repost_count", PStr "0");
    ("view_count", PStr "0");
    ("thumbnail", PNone);
    ("file", PStr "u.mp4")]).
Proof.
  apply build_data_defaults. intros k Hk.
  rewrite !elem_of_cons, elem_of_nil in Hk.
  destruct Hk as [->|[->|[->|[->|[->|[->|[->|[->|[->|[]]]]]]]]]]; reflexivity.
Defined.

(** X5, on a run: the title is [None]. *)
Lemma bad_title_fails_download_run :
  fst (download_tiktok Sample.nameless Run.url Run.empty) =
    Ok (error_record
          ("Error: '" ++ type_name PNone ++ "' object is not subscriptable")) /\
  w_downloads (snd (download_tiktok Sample.nameless Run.url Run.empty)) =
    w_downloads Run.empty ++ x_files (c_extract Sample.nameless) /\
  w_cache (snd (download_tiktok Sample.nameless Run.url Run.empty)) =
    w_cache Run.empty.
Proof.
  apply (bad_title_fails_download Sample.nameless Run.url Run.empty
           Sample.untitled PNone PNone).
  - by vm_compute.
  - reflexivity.
  - reflexivity.
  - reflexivity.
  - by left.
Defined.

(** X6, on a run: a message of 129 characters. *)
Lemma error_message_bounded_run :
  exists shown rest,
    fst (download_tiktok Sample.refused Run.url Run.empty) =
      Ok (error_record ("Error: " ++ shown)) /\
    Sample.forbidden = (shown ++ rest)%string /\
    (String.length shown <= 100)%nat /\
    last (w_log (snd (download_tiktok Sample.refused Run.url Run.empty))) =
      Some (ERROR, ("Download gagal: " ++ Sample.forbidden)%string).
Proof.
  apply error_message_bounded.
  - by vm_compute.
  - by left.
Defined.

(** X7, on a run: two old files are in the directory, and stay. *)
Lemma failed_download_runs_no_cleanup_run :
  w_downloads (snd (download_tiktok Sample.refused Run.url Run.tidy)) =
  w_downloads Run.tidy ++ x_files (c_extract Sample.refused).
Proof.
  apply (failed_download_runs_no_cleanup Sample.refused Run.url Run.tidy
           Sample.forbidden).
  - by vm_compute.
  - by left.
Defined.

(** X9, on a run: the entry of another URL. *)
Lemma download_touches_own_entry_only_run :
  w_cache (snd (download_tiktok Run.works Run.url Sample.other)) !! "0.json"%string =
    w_cache Sample.other !! "0.json"%string /\
  is_Some (w_cache (snd (download_tiktok Run.works Run.url Sample.other))
             !! "0.json"%string).
Proof.
  destruct (download_touches_own_entry_only Run.works Run.url Sample.other "0.json")
    as [Hsame Hstays].
  split.
  - apply Hsame. intros Heq%(f_equal String.length). by vm_compute in Heq.
  - apply Hstays. by eexists.
Defined.

(** X10, on a run: the second request comes 500 seconds later, and yt-dlp
    would refuse it. *)
Lemma second_request_from_cache_run :
  fst (download_tiktok Run.works Run.url Run.empty) = Ok Run.data /\
  fst (download_tiktok Sample.refused Run.url Sample.later) = Ok Run.data /\
  w_downloads (snd (download_tiktok Sample.refused Run.url Sample.later)) =
    w_downloads Sample.later /\
  w_cache (snd (download_tiktok Sample.refused Run.url Sample.later)) =
    w_cache Sample.later /\
  w_now (snd (download_tiktok Sample.refused Run.url Sample.later)) =
    w_now Sample.later.
Proof.
  apply (second_request_from_cache Run.works Sample.refused Run.url Run.empty
           Sample.later Run.info Run.data).
  - by vm_compute.
  - reflexivity.
  - by vm_compute.
  - by vm_compute.
  - reflexivity.
  - by vm_compute.
  - reflexivity.
  - by vm_compute.
Defined.

(** X12, on a run. *)
Lemma index_returns_download_run :
  exists r w',
    download_tiktok Run.works
      (Str.strip "  https://www.tiktok.com/@user/video/1 ") Run.empty = (Ok r, w') /\
    index Run.works (POST (Some "  https://www.tiktok.com/@user/video/1 ")) Run.empty =
      (Ok (Some r), w').
Proof.
  apply index_returns_download.
  - apply contains_spec. by vm_compute.
  - right. by vm_compute.
Defined.

(** X13, on a run: the first file of the listing cannot be removed. *)
Lemma cleanup_only_removes_old_run :
  w_downloads (snd (cleanup_old_files Run.stuck)) `sublist_of` w_downloads Run.stuck /\
  forall n e, (n, e) ∈ w_downloads Run.stuck ->
    (n, e) ∉ w_downloads (snd (cleanup_old_files Run.stuck)) ->
    (e_mtime e < w_now Run.stuck - 3600)%Q /\ e_remove e = None.
Proof.
  apply (cleanup_only_removes_old Run.stuck).
  apply (bool_decide_unpack _). by vm_compute.
Defined.

(** X14, on a run. *)
Lemma cleanup_twice_run :
  w_downloads (snd (cleanup_old_files (snd (cleanup_old_files Run.stuck)))) =
  w_downloads (snd (cleanup_old_files Run.stuck)).
Proof.
  apply (cleanup_twice Run.stuck).
  apply (bool_decide_unpack _). by vm_compute.
Defined.

(** X15, on a run. *)
Lemma cleanup_logs_each_removal_run :
  w_log (snd (cleanup_old_files Run.tidy)) =
    w_log Run.tidy ++
    ((fun p => (INFO, ("File dihapus: " ++ p.1)%string)) <$>
       List.filter (fun p => is_old (w_now Run.tidy) p.2) (w_downloads Run.tidy)) /\
  w_downloads (snd (cleanup_old_files Run.tidy)) ++
    List.filter (fun p => is_old (w_now Run.tidy) p.2) (w_downloads Run.tidy)
  ≡ₚ w_downloads Run.tidy.
Proof.
  apply (cleanup_logs_each_removal Run.tidy).
  - apply (bool_decide_unpack _). by vm_compute.
  - by apply removable_olds_forallb.
Defined.

(** X16, on a run: a name that is not in the directory. *)
Lemma download_file_not_found_run :
  download_file "u.mp4" Run.tidy = (Ok (Text "File tidak ditemukan" 404), Run.tidy).
Proof.
  apply (proj2 (@download_file_not_found Sample.serves_listed "u.mp4" Run.tidy)).
  split_and!.
  - intros Hin. apply (bool_decide_pack _) in Hin. by vm_compute in Hin.
  - discriminate.
  - discriminate.
Defined.

(** X17, on a run. *)
Lemma downloaded_file_is_served_run :
  exists filename,
    assoc "file" [
      ("title", PStr "Tari");
      ("duration", PInt 15);
      ("uploader", PStr "user");
      ("like_count", PStr "1.5K");
      ("comment_count", PStr "0");
      ("repost_count", PStr "0");
      ("view_count", PStr "2.3Jt");
      ("thumbnail", PStr "https://p16.tiktokcdn.com/a.jpg");
      ("file", PStr "u.mp4")] = Some (PStr filename) /\
    download_file filename (snd (download_tiktok Run.works Run.url Run.tidy)) =
      (Ok (Sent ("u.mp4"%string, "tiktok_video_u.mp4.mp4"%string)),
       snd (download_tiktok Run.works Run.url Run.tidy)).
Proof.
  apply (@downloaded_file_is_served md5_digest python_json Sample.serves_listed
           Run.works Run.url Run.tidy Run.info _ Run.fresh
           ("u.mp4"%string, "tiktok_video_u.mp4.mp4"%string)).
  - by vm_compute.
  - reflexivity.
  - by vm_compute.
  - apply (bool_decide_unpack _). by vm_compute.
  - apply list_elem_of_In. left. reflexivity.
  - by vm_compute.
  - by vm_compute.
Defined.

(** X18, on a run: the file yt-dlp wrote is stamped with time 0. *)
Lemma stale_file_reaped_at_once_run :
  fst (download_tiktok Sample.stamped Run.url Run.tidy) =
    Ok (PDict [
      ("title", PStr "Tari");
      ("duration", PInt 15);
      ("uploader", PStr "user");
      ("like_count", PStr "1.5K");
      ("comment_count", PStr "0");
      ("repost_count", PStr "0");
      ("view_count", PStr "2.3Jt");
      ("thumbnail", PStr "https://p16.tiktokcdn.com/a.jpg");
      ("file", PStr "u.mp4")]) /\
  exists filename,
    assoc "file" [
      ("title", PStr "Tari");
      ("duration", PInt 15);
      ("uploader", PStr "user");
      ("like_count", PStr "1.5K");
      ("comment_count", PStr "0");
      ("repost_count", PStr "0");
      ("view_count", PStr "2.3Jt");
      ("thumbnail", PStr "https://p16.tiktokcdn.com/a.jpg");
      ("file", PStr "u.mp4")] = Some (PStr filename) /\
    download_file filename (snd (download_tiktok Sample.stamped Run.url Run.tidy)) =
      (Ok (Text "File tidak ditemukan" 404),
       snd (download_tiktok Sample.stamped Run.url Run.tidy)).
Proof.
  apply (@stale_file_reaped_at_once md5_digest python_json Sample.serves_listed
           Sample.stamped Run.url Run.tidy Run.info _ Run.old).
  - by vm_compute.
  - reflexivity.
  - by vm_compute.
  - apply (bool_decide_unpack _). by vm_compute.
  - by apply removable_olds_forallb.
  - apply list_elem_of_In. left. reflexivity.
  - by vm_compute.
Defined.

(** X19, on a run. *)
Lemma format_num_rounds_up_to_1000K_run :
  format_num (PInt 999987) = "1000.0K"%string.
Proof. apply format_num_rounds_up_to_1000K. lia. Defined.

(** X22, on a run: the cache holds the record of the URL, and yt-dlp
    would fail. *)
Lemma cache_holds_only_records_run :
  cache_clean (snd (download_tiktok Run.fails Run.url (Run.cached_at 9000))) /\
  exists v, fst (download_tiktok Run.fails Run.url (Run.cached_at 9000)) = Ok v /\
            success_record v /\ forall msg, v <> error_record msg.
Proof.
  destruct (cache_holds_only_records Run.fails Run.url (Run.cached_at 9000))
    as [Hclean Hhit].
  - intros name f Hf. unfold Run.cached_at in Hf. cbn [w_cache] in Hf.
    apply lookup_singleton_Some in Hf as [_ <-]. exists Run.data. split_and!.
    + exists Run.info, "u.mp4"%string. by vm_compute.
    + by vm_compute.
    + reflexivity.
  - discriminate.
  - discriminate.
  - split; [exact Hclean|]. apply Hhit. by vm_compute.
Defined.
